(** * The IoT ingestion endpoint of [backend/routes/iot.py]

    A shallow embedding of [iot_ingest] and [broadcast_update]: the risk
    score and level, the facts staged in the database session and made
    durable by [db.commit()], the response dictionary, and the broadcast
    task handed to the asyncio event loop. *)

From Stdlib Require Import ZArith String List Lia PrimFloat.
From stdpp Require Import gmap strings list fin_maps.

Set Warnings "-inexact-float".

Local Open Scope string_scope.
Local Open Scope list_scope.
Local Open Scope Z_scope.

(** ** Python values *)

(** The JSON-like values held by the dictionaries of the endpoint
    ([data.dict()] and [result]). *)
Inductive value : Type :=
  | VInt (n : Z)
  | VFloat (x : float)
  | VStr (s : string).

(** A Python [dict] with string keys. *)
Abbreviation dict := (gmap string value).

(** Exceptions: [Exc] is an instance of a subclass of [Exception], [BaseExc]
    one of [BaseException] outside [Exception] (asyncio.CancelledError,
    KeyboardInterrupt); an [except Exception] clause catches the first only. *)
Inductive exc : Type :=
  | Exc (name : string)
  | BaseExc (name : string).

Inductive result (A : Type) : Type :=
  | Ok (a : A)
  | Raise (e : exc).
Arguments Ok {A} a.
Arguments Raise {A} e.

(** ** The risk score (iot.py, lines 103 to 112) *)

Module Risk.

(** [if anomaly_flag == -1: score += 40] *)
Definition add_anomaly (anomaly_flag : Z) (score : Z) : Z :=
  if anomaly_flag =? -1 then score + 40 else score.

(** [if abs(anomaly_score) > 0.15: score += 10] on IEEE binary64 floats;
    a NaN compares false, as in Python. *)
Definition add_deviation (anomaly_score : float) (score : Z) : Z :=
  if (0.15 <? abs anomaly_score)%float then score + 10 else score.

(** [cluster_id in [6, 7]] *)
Definition in_list (x : Z) (l : list Z) : bool := existsb (Z.eqb x) l.

(** [if cluster_id in [6, 7]: score += 20] *)
Definition add_cluster (cluster_id : Z) (score : Z) : Z :=
  if in_list cluster_id [6; 7] then score + 20 else score.

(** The three updates of [score], in the order of the source. *)
Definition risk_score (anomaly_flag : Z) (anomaly_score : float)
    (cluster_id : Z) : Z :=
  let score := 0 in
  let score := add_anomaly anomaly_flag score in
  let score := add_deviation anomaly_score score in
  let score := add_cluster cluster_id score in
  score.

(** ["HIGH" if score >= 60 else "MEDIUM" if score >= 30 else "LOW"] *)
Definition risk_level (score : Z) : string :=
  if score >=? 60 then "HIGH" else if score >=? 30 then "MEDIUM" else "LOW".

(** The additive rules as the specification words them. *)
Definition rule_outlier (anomaly_flag : Z) : Z :=
  if anomaly_flag =? -1 then 40 else 0.
Definition rule_deviation (anomaly_score : float) : Z :=
  if (0.15 <? abs anomaly_score)%float then 10 else 0.
Definition rule_cluster (cluster_id : Z) : Z :=
  if decide (cluster_id = 6 ∨ cluster_id = 7) then 20 else 0.

End Risk.

Import Risk.

(** ** Request body and persisted rows *)

(** [class IoTInput(BaseModel)] *)
Module IoTInput.
Record t : Type := {
  timestamp : string;
  store : Z;
  dept : Z;
  Weekly_Sales : float;
  Temperature : float;
  Fuel_Price : float;
  CPI : float;
  Unemployment : float;
  IsHoliday : Z }.

(** [data.dict()]: the fields under their own names, in declaration
    order. *)
Definition dict (data : t) : gmap string value :=
  <["IsHoliday" := VInt (IsHoliday data)]>
  (<["Unemployment" := VFloat (Unemployment data)]>
  (<["CPI" := VFloat (CPI data)]>
  (<["Fuel_Price" := VFloat (Fuel_Price data)]>
  (<["Temperature" := VFloat (Temperature data)]>
  (<["Weekly_Sales" := VFloat (Weekly_Sales data)]>
  (<["dept" := VInt (dept data)]>
  (<["store" := VInt (store data)]>
  (<["timestamp" := VStr (timestamp data)]> ∅)))))))).
End IoTInput.

(** The rows of [models.py], with the columns the endpoint fills in. *)
Module AnomalyLog.
Record t : Type :=
  { timestamp : string; value : float; score : float; is_anomaly : bool }.
End AnomalyLog.

Module ClusterLog.
Record t : Type :=
  { store : Z; dept : Z; cluster : Z; features : gmap string value }.
End ClusterLog.

Module RiskLog.
Record t : Type := {
  store : Z; dept : Z; risk_score : Z; risk_level : string;
  anomaly : Z; cluster : Z }.
End RiskLog.

Module Alert.
Record t : Type :=
  { store : Z; dept : Z; message : string; risk_score : Z }.
End Alert.

(** An object handed to [db.add]. *)
Inductive row : Type :=
  | RAnomaly (a : AnomalyLog.t)
  | RCluster (c : ClusterLog.t)
  | RRisk (k : RiskLog.t)
  | RAlert (a : Alert.t).

(** ** The collaborators of the endpoint *)

(** One row of the frame returned by [model.detect_anomalies], read through
    [int(anomaly["anomaly"])] and [float(anomaly["anomaly_score"])]. *)
Module AnomalyRow.
Record t : Type := { anomaly : Z; anomaly_score : float }.
End AnomalyRow.

(** The object returned by [get_model()] ([ml/model.py] is not among the
    sources): its two entry points are taken as they are used, each either
    returning or raising. A frame is the list of its rows. *)
Record Model : Type := {
  detect_anomalies : list (gmap string value) → result (list AnomalyRow.t);
  cluster : list (gmap string value) → result Z }.

(** The two methods of [websocket_manager.manager] the broadcast task
    calls, with the arguments it passes. *)
Inductive ws_call : Type :=
  | broadcast_iot_update (data result : gmap string value)
  | broadcast_alert (store dept : option value) (message : string)
      (risk_score : option value).

(** What the endpoint does not decide itself: the model, whether the
    transaction of [db.commit()] goes through for the staged rows, and
    whether a call of the manager returns or raises. *)
Record Env : Type := {
  get_model : result Model;
  commit_error : list row → option exc;
  manager_error : ws_call → option exc }.

Definition with_manager (env : Env) (mgr : ws_call → option exc) : Env :=
  {| get_model := get_model env;
     commit_error := commit_error env;
     manager_error := mgr |}.

(** Modelled from the spec: [websocket_manager.manager] is not among the
    sources; its broadcast swallows the failure of a delivery to a
    subscriber and never propagates it to its caller (section 4.3), so both
    methods return normally. *)
Definition manager_swallows (_ : ws_call) : option exc := None.

(** The coroutine handed to [asyncio.create_task]. *)
Inductive coroutine : Type :=
  | broadcast_update_coro (data result : gmap string value).

Inductive log_record : Type :=
  | log_error (e : exc)
  | log_info (store dept : Z) (level : string).

(** ** State and effects *)

(** [db_new] are the objects added to the session and not yet committed,
    [db_rows] the rows the database holds durably, [loop_ready] the tasks
    created on the event loop that have not run yet, [ws_calls] the calls
    made to the manager, oldest first. *)
Record World : Type := {
  db_new : list row;
  db_rows : list row;
  loop_ready : list coroutine;
  ws_calls : list ws_call;
  log : list log_record }.

Definition M (A : Type) : Type := World → result A * World.

#[global] Instance M_ret : MRet M := λ A a w, (Ok a, w).
#[global] Instance M_bind : MBind M := λ A B f m w,
  match m w with
  | (Ok a, w') => f a w'
  | (Raise e, w') => (Raise e, w')
  end.

Definition lift {A : Type} (r : result A) : M A := λ w, (r, w).

(** [try: body except Exception as e: handler(e)] *)
Definition try_except_Exception {A : Type} (body : M A)
    (handler : exc → M A) : M A := λ w,
  match body w with
  | (Raise (Exc n), w') => handler (Exc n) w'
  | r => r
  end.

(** Modelled from the spec: [database.SessionLocal] is not among the
    sources; the session is the persistence sink of section 6. [db.add]
    stages an object, [db.commit()] appends the staged objects to the store
    as one atomic unit or raises and leaves the store as it was, and
    [db.close()] drops what is still staged. *)
Definition db_add (r : row) : M unit := λ w,
  (Ok (), {| db_new := db_new w ++ [r]; db_rows := db_rows w;
             loop_ready := loop_ready w; ws_calls := ws_calls w;
             log := log w |}).

Definition db_commit (env : Env) : M unit := λ w,
  match commit_error env (db_new w) with
  | Some e => (Raise e, w)
  | None =>
      (Ok (), {| db_new := []; db_rows := db_rows w ++ db_new w;
                 loop_ready := loop_ready w; ws_calls := ws_calls w;
                 log := log w |})
  end.

Definition db_close (w : World) : World :=
  {| db_new := []; db_rows := db_rows w; loop_ready := loop_ready w;
     ws_calls := ws_calls w; log := log w |}.

(** [asyncio.create_task(coro)]: the coroutine is queued on the loop and
    the caller goes on without awaiting it. *)
Definition create_task (c : coroutine) : M unit := λ w,
  (Ok (), {| db_new := db_new w; db_rows := db_rows w;
             loop_ready := loop_ready w ++ [c]; ws_calls := ws_calls w;
             log := log w |}).

(** [await manager.<method>(...)] *)
Definition manager_call (env : Env) (c : ws_call) : M unit := λ w,
  let w' := {| db_new := db_new w; db_rows := db_rows w;
               loop_ready := loop_ready w; ws_calls := ws_calls w ++ [c];
               log := log w |} in
  match manager_error env c with
  | Some e => (Raise e, w')
  | None => (Ok (), w')
  end.

Definition logger (r : log_record) : M unit := λ w,
  (Ok (), {| db_new := db_new w; db_rows := db_rows w;
             loop_ready := loop_ready w; ws_calls := ws_calls w;
             log := log w ++ [r] |}).

(** [series.iloc[0]] raises IndexError on an empty frame. *)
Definition iloc0 {A : Type} (l : list A) : result A :=
  match l with
  | x :: _ => Ok x
  | [] => Raise (Exc "IndexError")
  end.

(** [d.get(k) == s] for a string literal [s] *)
Definition get_is_str (d : gmap string value) (k s : string) : bool :=
  match d !! k with
  | Some (VStr t) => String.eqb t s
  | _ => false
  end.

(** ** The endpoint (iot.py) *)

(** The one-row frame built for the model (lines 71 to 80): the readings
    under the capitalised column names. *)
Definition model_frame (data : IoTInput.t) : list (gmap string value) :=
  [ <["IsHoliday" := VInt (IoTInput.IsHoliday data)]>
    (<["Dept" := VInt (IoTInput.dept data)]>
    (<["Store" := VInt (IoTInput.store data)]>
    (<["Unemployment" := VFloat (IoTInput.Unemployment data)]>
    (<["CPI" := VFloat (IoTInput.CPI data)]>
    (<["Fuel_Price" := VFloat (IoTInput.Fuel_Price data)]>
    (<["Temperature" := VFloat (IoTInput.Temperature data)]>
    (<["Weekly_Sales" := VFloat (IoTInput.Weekly_Sales data)]> ∅))))))) ].

(** [async def broadcast_update(data, result)] (lines 36 to 50) *)
Definition broadcast_update (env : Env) (data result : gmap string value)
    : M unit :=
  try_except_Exception
    (manager_call env (broadcast_iot_update data result) ;;
     if get_is_str result "risk_level" "HIGH" then
       manager_call env
         (broadcast_alert (data !! "store") (data !! "dept")
            "⚠ High risk detected from IoT update"
            (result !! "risk_score"))
     else mret ())
    (λ e, logger (log_error e)).

(** [async def iot_ingest(data, background_tasks, db)] (lines 54 to 151);
    the score and the level are [Risk.risk_score] and [Risk.risk_level]. *)
Definition iot_ingest (env : Env) (data : IoTInput.t)
    : M (gmap string value) :=
  model ← lift (get_model env) ;
  let df := model_frame data in
  frame ← lift (detect_anomalies model df) ;
  anomaly ← lift (iloc0 frame) ;
  let anomaly_flag := AnomalyRow.anomaly anomaly in
  let anomaly_score := AnomalyRow.anomaly_score anomaly in
  db_add (RAnomaly {| AnomalyLog.timestamp := IoTInput.timestamp data;
                      AnomalyLog.value := IoTInput.Weekly_Sales data;
                      AnomalyLog.score := anomaly_score;
                      AnomalyLog.is_anomaly := (anomaly_flag =? -1) |}) ;;
  cluster_id ← lift (cluster model df) ;
  db_add (RCluster {| ClusterLog.store := IoTInput.store data;
                      ClusterLog.dept := IoTInput.dept data;
                      ClusterLog.cluster := cluster_id;
                      ClusterLog.features := IoTInput.dict data |}) ;;
  let score := risk_score anomaly_flag anomaly_score cluster_id in
  let level := risk_level score in
  db_add (RRisk {| RiskLog.store := IoTInput.store data;
                   RiskLog.dept := IoTInput.dept data;
                   RiskLog.risk_score := score;
                   RiskLog.risk_level := level;
                   RiskLog.anomaly := anomaly_flag;
                   RiskLog.cluster := cluster_id |}) ;;
  (if String.eqb level "HIGH" then
     db_add (RAlert {| Alert.store := IoTInput.store data;
                       Alert.dept := IoTInput.dept data;
                       Alert.message := "⚠ High risk detected from IoT update";
                       Alert.risk_score := score |})
   else mret ()) ;;
  db_commit env ;;
  let result : gmap string value :=
    <["risk_score" := VInt score]>
    (<["risk_level" := VStr level]>
    (<["cluster" := VInt cluster_id]>
    (<["anomaly_score" := VFloat anomaly_score]>
    (<["anomaly" := VInt anomaly_flag]>
    (<["status" := VStr "success"]> ∅))))) in
  create_task (broadcast_update_coro (IoTInput.dict data) result) ;;
  logger (log_info (IoTInput.store data) (IoTInput.dept data) level) ;;
  mret result.

(** One request served: [get_db] opens a session with nothing staged,
    the endpoint runs, and the [finally] clause of [get_db] closes the
    session whether the endpoint returned or raised. *)
Definition serve (env : Env) (data : IoTInput.t) (w : World)
    : result (gmap string value) * World :=
  let '(r, w') := iot_ingest env data (db_close w) in
  (r, db_close w').

(** The event loop runs a queued coroutine to its end. An exception that
    leaves the coroutine stays in its task ([Some e]); nothing awaits the
    task, so it reaches no caller. *)
Definition run_task (env : Env) (c : coroutine) (w : World)
    : option exc * World :=
  match c with
  | broadcast_update_coro data result =>
      match broadcast_update env data result w with
      | (Ok _, w') => (None, w')
      | (Raise e, w') => (Some e, w')
      end
  end.

(** The loop runs every task queued so far, oldest first. *)
Definition run_until_idle (env : Env) (w : World) : World :=
  fold_left (λ w c, snd (run_task env c w)) (loop_ready w)
    {| db_new := db_new w; db_rows := db_rows w; loop_ready := [];
       ws_calls := ws_calls w; log := log w |}.

(** A whole ingest call: the request is answered, then the loop runs what
    was queued. *)
Definition ingest_call (env : Env) (data : IoTInput.t) (w : World)
    : result (gmap string value) * World :=
  let '(r, w') := serve env data w in
  (r, run_until_idle env w').

(** ** What a call stages and returns for an answer of the model *)

Section Outcome.
Variables (data : IoTInput.t) (anomaly : AnomalyRow.t) (cluster_id : Z).

Definition the_score : Z :=
  risk_score (AnomalyRow.anomaly anomaly)
    (AnomalyRow.anomaly_score anomaly) cluster_id.

Definition the_level : string := risk_level the_score.

Definition the_anomaly_log : AnomalyLog.t :=
  {| AnomalyLog.timestamp := IoTInput.timestamp data;
     AnomalyLog.value := IoTInput.Weekly_Sales data;
     AnomalyLog.score := AnomalyRow.anomaly_score anomaly;
     AnomalyLog.is_anomaly := (AnomalyRow.anomaly anomaly =? -1) |}.

Definition the_cluster_log : ClusterLog.t :=
  {| ClusterLog.store := IoTInput.store data;
     ClusterLog.dept := IoTInput.dept data;
     ClusterLog.cluster := cluster_id;
     ClusterLog.features := IoTInput.dict data |}.

Definition the_risk_log : RiskLog.t :=
  {| RiskLog.store := IoTInput.store data;
     RiskLog.dept := IoTInput.dept data;
     RiskLog.risk_score := the_score;
     RiskLog.risk_level := the_level;
     RiskLog.anomaly := AnomalyRow.anomaly anomaly;
     RiskLog.cluster := cluster_id |}.

Definition the_alert : Alert.t :=
  {| Alert.store := IoTInput.store data;
     Alert.dept := IoTInput.dept data;
     Alert.message := "⚠ High risk detected from IoT update";
     Alert.risk_score := the_score |}.

Definition the_rows : list row :=
  [RAnomaly the_anomaly_log; RCluster the_cluster_log; RRisk the_risk_log]
  ++ (if String.eqb the_level "HIGH" then [RAlert the_alert] else []).

Definition the_result : gmap string value :=
  <["risk_score" := VInt the_score]>
  (<["risk_level" := VStr the_level]>
  (<["cluster" := VInt cluster_id]>
  (<["anomaly_score" := VFloat (AnomalyRow.anomaly_score anomaly)]>
  (<["anomaly" := VInt (AnomalyRow.anomaly anomaly)]>
  (<["status" := VStr "success"]> ∅))))).

Definition the_task : coroutine :=
  broadcast_update_coro (IoTInput.dict data) the_result.
End Outcome.

(** The scoring steps of a call: [get_model()], [detect_anomalies] and its
    first row, then [cluster]. *)
Definition scoring (env : Env) (data : IoTInput.t)
    : result (AnomalyRow.t * Z) :=
  match get_model env with
  | Raise e => Raise e
  | Ok model =>
      match detect_anomalies model (model_frame data) with
      | Raise e => Raise e
      | Ok frame =>
          match iloc0 frame with
          | Raise e => Raise e
          | Ok anomaly =>
              match cluster model (model_frame data) with
              | Raise e => Raise e
              | Ok cluster_id => Ok (anomaly, cluster_id)
              end
          end
      end
  end.

(** ** The rows of each table among a list of rows *)

Definition as_anomaly (r : row) : option AnomalyLog.t :=
  match r with RAnomaly a => Some a | _ => None end.
Definition as_cluster (r : row) : option ClusterLog.t :=
  match r with RCluster c => Some c | _ => None end.
Definition as_risk (r : row) : option RiskLog.t :=
  match r with RRisk k => Some k | _ => None end.
Definition as_alert (r : row) : option Alert.t :=
  match r with RAlert a => Some a | _ => None end.

(** ** One row per table *)

(** One row per table among the rows [new] a call has added
    to the store: one AnomalyLog, one ClusterLog and one RiskLog, the
    RiskLog repeating the cluster id of the ClusterLog and holding in
    [anomaly] the verdict of the model, whose test against -1 is the flag of
    the AnomalyLog. *)
Definition one_row_each (new : list row) : Prop :=
  ∃ a c k,
    omap as_anomaly new = [a] ∧
    omap as_cluster new = [c] ∧
    omap as_risk new = [k] ∧
    RiskLog.cluster k = ClusterLog.cluster c ∧
    AnomalyLog.is_anomaly a = (RiskLog.anomaly k =? -1).

(** ** Sample calls *)

Module Sample.
Definition data : IoTInput.t :=
  {| IoTInput.timestamp := "2025-11-30T09:15:00";
     IoTInput.store := 3;
     IoTInput.dept := 14;
     IoTInput.Weekly_Sales := 24000.5;
     IoTInput.Temperature := 21.5;
     IoTInput.Fuel_Price := 3.25;
     IoTInput.CPI := 211.5;
     IoTInput.Unemployment := 7.5;
     IoTInput.IsHoliday := 0 |}.

(** A model answering every frame the same way. *)
Definition model (verdict : Z) (anomaly_score : float)
    (cluster_id : result Z) : Model :=
  {| detect_anomalies := λ _,
       Ok [ {| AnomalyRow.anomaly := verdict;
               AnomalyRow.anomaly_score := anomaly_score |} ];
     cluster := λ _, cluster_id |}.

Definition env (m : result Model) : Env :=
  {| get_model := m;
     commit_error := λ _, None;
     manager_error := manager_swallows |}.

(** Outlier verdict, score 0.20, cluster 7. *)
Definition outlier : AnomalyRow.t :=
  {| AnomalyRow.anomaly := -1; AnomalyRow.anomaly_score := 0.2 |}.
Definition high : Env := env (Ok (model (-1) 0.2 (Ok 7))).
(** Normal verdict, score 0.05, cluster 1. *)
Definition normal : AnomalyRow.t :=
  {| AnomalyRow.anomaly := 1; AnomalyRow.anomaly_score := 0.05 |}.
Definition low : Env := env (Ok (model 1 0.05 (Ok 1))).
(** Anomaly detection answers, cluster assignment raises. *)
Definition cluster_down : Env :=
  env (Ok (model (-1) 0.2 (Raise (Exc "ValueError")))).
(** Anomaly detection raises. *)
Definition detect_down : Env :=
  env (Ok {| detect_anomalies := λ _, Raise (Exc "NotFittedError");
             cluster := λ _, Ok 7 |}).

(** Nothing stored, staged, queued or sent yet. *)
Definition world : World :=
  {| db_new := []; db_rows := []; loop_ready := []; ws_calls := [];
     log := [] |}.
End Sample.

(** ** More sample calls *)

Module Faulty.
(** The commit of every transaction raises. *)
Definition commit_down : Env :=
  {| get_model := Ok (Sample.model (-1) 0.2 (Ok 7));
     commit_error := λ _, Some (Exc "OperationalError");
     manager_error := manager_swallows |}.

(** [get_model()] raises. *)
Definition model_down : Env := Sample.env (Raise (Exc "FileNotFoundError")).

(** Anomaly detection returns a frame without rows. *)
Definition empty_frame : Env :=
  Sample.env (Ok {| detect_anomalies := λ _, Ok []; cluster := λ _, Ok 7 |}).

(** A manager raising [e] from the update broadcast and returning from
    the alert broadcast. *)
Definition update_raises (e : exc) (c : ws_call) : option exc :=
  match c with
  | broadcast_iot_update _ _ => Some e
  | broadcast_alert _ _ _ _ => None
  end.

(** A HIGH response and a record, as the broadcast task receives them. *)
Definition high_result : gmap string value := the_result Sample.outlier 7.
Definition record : gmap string value := IoTInput.dict Sample.data.
End Faulty.

(** * The simulator (iot_simulator.py) *)

Module Simulator.

Definition PRODUCTION_URL : string :=
  "https://organ-c-codefest-hackathon.onrender.com/api/v1/iot".
Definition LOCAL_URL : string := "http://localhost:8000/api/v1/iot".

(** What [r.json()] returns: a JSON object, read with [.get], or another
    JSON value, on which [.get] raises AttributeError. *)
Inductive json : Type :=
  | JObject (d : gmap string value)
  | JOther.

(** The response of [requests.post]: its status code and what [r.json()]
    does, return or raise. *)
Record response : Type := { status_code : Z; body : result json }.

(** What the simulator does not decide itself, each answer indexed by the
    number of draws made before it: the clock, the [random] module,
    [round], and the network. *)
Record Outside : Type := {
  utcnow_isoformat : nat → string;
  randint : nat → Z → Z → Z;
  uniform : nat → float → float → float;
  choice : nat → list Z → Z;
  round : float → Z → float;
  post : nat → string → gmap string value → result response }.

(** A line written by [print], with the values its f-string formats. *)
Inductive line : Type :=
  | line_sending (anomaly : bool)
  | line_store_dept (store dept : value)
  | line_sales (sales : value)
  | line_response (status : Z)
  | line_risk (icon : string) (risk score : value)
  | line_anomaly_cluster (anomaly cluster : option value)
  | line_timed_out
  | line_connection_failed
  | line_failed (e : exc)
  | line_started
  | line_target (url : string)
  | line_interval (interval : Z)
  | line_press_ctrl_c
  | line_record (count : Z)
  | line_burst_mode (count : Z)
  | line_burst_complete (count : Z)
  | line_rule
  | line_title.

(** [draws] counts the answers taken from the outside, [stdout] are the
    lines printed, [posted] the requests sent (url and JSON body) and
    [slept] the arguments of [time.sleep], all oldest first. *)
Record Run : Type := {
  draws : nat;
  stdout : list line;
  posted : list (string * gmap string value);
  slept : list value }.

Definition Sim (A : Type) : Type := Run → result A * Run.

#[global] Instance Sim_ret : MRet Sim := λ A a w, (Ok a, w).
#[global] Instance Sim_bind : MBind Sim := λ A B f m w,
  match m w with
  | (Ok a, w') => f a w'
  | (Raise e, w') => (Raise e, w')
  end.

Definition draw {A : Type} (f : nat → A) : Sim A := λ w,
  (Ok (f (draws w)),
   {| draws := S (draws w); stdout := stdout w; posted := posted w;
      slept := slept w |}).

Definition print (l : line) : Sim unit := λ w,
  (Ok (), {| draws := draws w; stdout := stdout w ++ [l];
             posted := posted w; slept := slept w |}).

(** [time.sleep(seconds)] *)
Definition sleep (seconds : value) : Sim unit := λ w,
  (Ok (), {| draws := draws w; stdout := stdout w; posted := posted w;
             slept := slept w ++ [seconds] |}).

(** [requests.post(url, json=data, timeout=10)] *)
Definition requests_post (out : Outside) (url : string)
    (data : gmap string value) : Sim response := λ w,
  (post out (draws w) url data,
   {| draws := S (draws w); stdout := stdout w;
      posted := posted w ++ [(url, data)]; slept := slept w |}).

Definition lift {A : Type} (r : result A) : Sim A := λ w, (r, w).

(** [d[k]] raises KeyError on a missing key. *)
Definition getitem (d : gmap string value) (k : string) : result value :=
  match d !! k with
  | Some v => Ok v
  | None => Raise (Exc "KeyError")
  end.

(** [j.get(k)] and [j.get(k, default)] *)
Definition json_get (j : json) (k : string) : result (option value) :=
  match j with
  | JObject d => Ok (d !! k)
  | JOther => Raise (Exc "AttributeError")
  end.

Definition json_get_default (j : json) (k : string) (dflt : value)
    : result value :=
  match j with
  | JObject d => Ok (default dflt (d !! k))
  | JOther => Raise (Exc "AttributeError")
  end.

(** [v == s] for a string literal [s] *)
Definition is_str (v : value) (s : string) : bool :=
  match v with
  | VStr t => String.eqb t s
  | _ => false
  end.

(** [def generate_random_record()] (lines 24 to 36); the entries of the
    literal are evaluated in order. *)
Definition generate_random_record (out : Outside)
    : Sim (gmap string value) :=
  timestamp ← draw (utcnow_isoformat out) ;
  store ← draw (λ n, randint out n 1 45) ;
  dept ← draw (λ n, randint out n 1 98) ;
  weekly_sales ← draw (λ n, round out (uniform out n 2000 60000) 2) ;
  temperature ← draw (λ n, round out (uniform out n 10 38) 2) ;
  fuel_price ← draw (λ n, round out (uniform out n 2.0 4.5) 2) ;
  cpi ← draw (λ n, round out (uniform out n 150 260) 2) ;
  unemployment ← draw (λ n, round out (uniform out n 3.0 11.0) 2) ;
  is_holiday ← draw (λ n, choice out n [0; 1]) ;
  mret (<["IsHoliday" := VInt is_holiday]>
       (<["Unemployment" := VFloat unemployment]>
       (<["CPI" := VFloat cpi]>
       (<["Fuel_Price" := VFloat fuel_price]>
       (<["Temperature" := VFloat temperature]>
       (<["Weekly_Sales" := VFloat weekly_sales]>
       (<["dept" := VInt dept]>
       (<["store" := VInt store]>
       (<["timestamp" := VStr timestamp]> ∅))))))))).

(** [def generate_anomaly_record()] (lines 39 to 51) *)
Definition generate_anomaly_record (out : Outside)
    : Sim (gmap string value) :=
  timestamp ← draw (utcnow_isoformat out) ;
  store ← draw (λ n, randint out n 1 45) ;
  dept ← draw (λ n, randint out n 1 98) ;
  weekly_sales ← draw (λ n, round out (uniform out n 100000 500000) 2) ;
  temperature ← draw (λ n, round out (uniform out n (-20) 50) 2) ;
  fuel_price ← draw (λ n, round out (uniform out n 6.0 10.0) 2) ;
  cpi ← draw (λ n, round out (uniform out n 300 400) 2) ;
  unemployment ← draw (λ n, round out (uniform out n 15.0 25.0) 2) ;
  mret (<["IsHoliday" := VInt 1]>
       (<["Unemployment" := VFloat unemployment]>
       (<["CPI" := VFloat cpi]>
       (<["Fuel_Price" := VFloat fuel_price]>
       (<["Temperature" := VFloat temperature]>
       (<["Weekly_Sales" := VFloat weekly_sales]>
       (<["dept" := VInt dept]>
       (<["store" := VInt store]>
       (<["timestamp" := VStr timestamp]> ∅))))))))).

(** The three [except] clauses of [send_record], tried in order:
    [requests.exceptions.Timeout], [requests.exceptions.ConnectionError],
    then [Exception]; an exception outside [Exception] passes through. *)
Definition try_except {A : Type} (body : Sim A)
    (on_timeout on_connection_error : Sim A) (on_exception : exc → Sim A)
    : Sim A := λ w,
  match body w with
  | (Raise (Exc name), w') =>
      if String.eqb name "Timeout" then on_timeout w'
      else if String.eqb name "ConnectionError" then on_connection_error w'
      else on_exception (Exc name) w'
  | r => r
  end.

(** [def send_record(url, anomaly=False)] (lines 54 to 83) *)
Definition send_record (out : Outside) (url : string) (anomaly : bool)
    : Sim (option (gmap string value)) :=
  data ← (if anomaly then generate_anomaly_record out
          else generate_random_record out) ;
  print (line_sending anomaly) ;;
  store ← lift (getitem data "store") ;
  dept ← lift (getitem data "dept") ;
  print (line_store_dept store dept) ;;
  sales ← lift (getitem data "Weekly_Sales") ;
  print (line_sales sales) ;;
  try_except
    (r ← requests_post out url data ;
     result ← lift (body r) ;
     risk ← lift (json_get_default result "risk_level" (VStr "UNKNOWN")) ;
     let risk_icon :=
       if is_str risk "HIGH" then "🔴"
       else if is_str risk "MEDIUM" then "🟡" else "🟢" in
     print (line_response (status_code r)) ;;
     score ← lift (json_get_default result "risk_score" (VInt 0)) ;
     print (line_risk risk_icon risk score) ;;
     anomaly_field ← lift (json_get result "anomaly") ;
     cluster_field ← lift (json_get result "cluster") ;
     print (line_anomaly_cluster anomaly_field cluster_field) ;;
     mret (match result with JObject d => Some d | JOther => None end))
    (print line_timed_out ;; mret None)
    (print line_connection_failed ;; mret None)
    (λ e, print (line_failed e) ;; mret None).

(** [for x in xs: body(x)] *)
Fixpoint for_each {A : Type} (xs : list A) (body : A → Sim unit)
    : Sim unit :=
  match xs with
  | [] => mret ()
  | x :: xs' => body x ;; for_each xs' body
  end.

(** [def run_burst(url, count=10)] (lines 105 to 114); [range(count)] is
    [seqZ 0 count], empty for a count below 1. *)
Definition run_burst (out : Outside) (url : string) (count : Z) : Sim unit :=
  print (line_burst_mode count) ;;
  for_each (seqZ 0 count) (λ i,
    let is_anomaly := (i `mod` 3 =? 0) in
    send_record out url is_anomaly ;;
    sleep (VFloat 0.5)) ;;
  print (line_burst_complete count).



(** The arguments as [argparse] returns them; [mode] is one of its three
    choices. *)
Inductive mode : Type := continuous | burst | single.

Record Args : Type :=
  { interval : Z; the_mode : mode; local : bool; burst_count : Z }.

(** The defaults of the four arguments. *)
Definition default_args : Args :=
  {| interval := 10; the_mode := continuous; local := false;
     burst_count := 10 |}.


(** The flags of the records announced on [stdout], in order. *)
Definition sendings (lines : list line) : list bool :=
  omap (λ l, match l with line_sending b => Some b | _ => None end) lines.

(** The numbers announced by "--- Record #n ---". *)
Definition record_numbers (lines : list line) : list Z :=
  omap (λ l, match l with line_record n => Some n | _ => None end) lines.

(** An outside on which nothing goes wrong: fixed draws, and a server
    answering every request with the same JSON object. *)
Definition steady (answer : gmap string value) : Outside :=
  {| utcnow_isoformat := λ _, "2025-11-30T09:15:00.000000";
     randint := λ _ lo _, lo;
     uniform := λ _ lo _, lo;
     choice := λ _ l, List.hd 0 l;
     round := λ x _, x;
     post := λ _ _ _,
       Ok {| status_code := 200; body := Ok (JObject answer) |} |}.

(** An outside whose network fails with [e] on every request. *)
Definition offline (e : exc) : Outside :=
  {| utcnow_isoformat := λ _, "2025-11-30T09:15:00.000000";
     randint := λ _ lo _, lo;
     uniform := λ _ lo _, lo;
     choice := λ _ l, List.hd 0 l;
     round := λ x _, x;
     post := λ _ _ _, Raise e |}.

Definition start : Run :=
  {| draws := 0; stdout := []; posted := []; slept := [] |}.

(** The request whose dictionary a generator returns when it starts at
    draw [n]. *)
Definition drawn_request (out : Outside) (anomaly : bool) (n : nat)
    : IoTInput.t :=
  if anomaly then
    {| IoTInput.timestamp := utcnow_isoformat out n;
       IoTInput.store := randint out (n + 1) 1 45;
       IoTInput.dept := randint out (n + 2) 1 98;
       IoTInput.Weekly_Sales := round out (uniform out (n + 3) 100000 500000) 2;
       IoTInput.Temperature := round out (uniform out (n + 4) (-20) 50) 2;
       IoTInput.Fuel_Price := round out (uniform out (n + 5) 6.0 10.0) 2;
       IoTInput.CPI := round out (uniform out (n + 6) 300 400) 2;
       IoTInput.Unemployment := round out (uniform out (n + 7) 15.0 25.0) 2;
       IoTInput.IsHoliday := 1 |}
  else
    {| IoTInput.timestamp := utcnow_isoformat out n;
       IoTInput.store := randint out (n + 1) 1 45;
       IoTInput.dept := randint out (n + 2) 1 98;
       IoTInput.Weekly_Sales := round out (uniform out (n + 3) 2000 60000) 2;
       IoTInput.Temperature := round out (uniform out (n + 4) 10 38) 2;
       IoTInput.Fuel_Price := round out (uniform out (n + 5) 2.0 4.5) 2;
       IoTInput.CPI := round out (uniform out (n + 6) 150 260) 2;
       IoTInput.Unemployment := round out (uniform out (n + 7) 3.0 11.0) 2;
       IoTInput.IsHoliday := choice out (n + 8) [0; 1] |}.

(** The number of draws of a generator. *)
Definition generator_draws (anomaly : bool) : nat :=
  if anomaly then 8%nat else 9%nat.

(** What [send_record] returns and prints once an exception [e] has been
    raised inside its [try]. *)
Definition handled (e : exc)
    : result (option (gmap string value)) * list line :=
  match e with
  | Exc name =>
      (Ok None,
       [ if String.eqb name "Timeout" then line_timed_out
         else if String.eqb name "ConnectionError"
              then line_connection_failed
              else line_failed (Exc name) ])
  | BaseExc name => (Raise (BaseExc name), [])
  end.

(** The icon printed for a risk level. *)
Definition icon_of (risk : value) : string :=
  if is_str risk "HIGH" then "🔴"
  else if is_str risk "MEDIUM" then "🟡" else "🟢".

(** What [send_record] returns and prints for an outcome of the post. *)
Definition reply (p : result response)
    : result (option (gmap string value)) * list line :=
  match p with
  | Raise e => handled e
  | Ok r =>
      match body r with
      | Raise e => handled e
      | Ok JOther => handled (Exc "AttributeError")
      | Ok (JObject d) =>
          let risk := default (VStr "UNKNOWN") (d !! "risk_level") in
          (Ok (Some d),
           [ line_response (status_code r);
             line_risk (icon_of risk) risk
               (default (VInt 0) (d !! "risk_score"));
             line_anomaly_cluster (d !! "anomaly") (d !! "cluster") ])
      end
  end.

(** No exception outside [Exception] (a KeyboardInterrupt) comes out of
    the network. *)
Definition uninterrupted (out : Outside) : Prop :=
  ∀ n url data name,
    post out n url data ≠ Raise (BaseExc name) ∧
    ∀ r, post out n url data = Ok r → body r ≠ Raise (BaseExc name).

(** The number of flags set in a list. *)
Definition count_set (flags : list bool) : nat :=
  length (filter (λ b : bool, b = true) flags).

(** Requests that all go to [url] with the dictionary of a request of
    the endpoint as their body. *)
Definition requests_to (url : string)
    (sent : list (string * gmap string value)) : Prop :=
  Forall (λ p, p.1 = url ∧ ∃ data, p.2 = IoTInput.dict data) sent.

End Simulator.
(** * The application (main.py) *)

Module Main.

Definition API_V1_PREFIX : string := "/api/v1".

(** The calls of [app.include_router(router, prefix=...)] in their order
    (lines 95 to 108): the router and the prefix it is mounted under. *)
Definition included : list (string * string) :=
  [ ("websocket_router", "/ws");
    ("iot_router", String.append API_V1_PREFIX "/iot");
    ("stores_router", String.append API_V1_PREFIX "/stores");
    ("recommendations_router",
     String.append API_V1_PREFIX "/recommendations");
    ("forecast_router", String.append API_V1_PREFIX "/forecast");
    ("kpi_router", String.append API_V1_PREFIX "/kpi");
    ("anomaly_router", String.append API_V1_PREFIX "/anomaly");
    ("risk_router", String.append API_V1_PREFIX "/risk");
    ("alerts_router", String.append API_V1_PREFIX "/alerts");
    ("cluster_router", String.append API_V1_PREFIX "/cluster") ].

(** The prefix a router is mounted under. *)
Definition prefix_of (router : string) : option string :=
  (λ found, found.2.2) <$> list_find (λ p, p.1 = router) included.

(** The path of the endpoint of iot.py, declared [@router.post("/")], once
    its router is included. *)
Definition iot_ingest_path : option string :=
  (λ prefix, String.append prefix "/") <$> prefix_of "iot_router".

End Main.

(** * Properties *)

(** ** The risk score *)

Lemma in_list_6_7 (c : Z) : in_list c [6; 7] = true ↔ c = 6 ∨ c = 7.
Proof.
  unfold in_list; simpl. rewrite !orb_true_iff, !Z.eqb_eq.
  intuition discriminate.
Qed.

Lemma risk_score_sum (f : Z) (s : float) (c : Z) :
  risk_score f s c = rule_outlier f + rule_deviation s + rule_cluster c.
Proof.
  unfold risk_score, add_anomaly, add_deviation, add_cluster,
    rule_outlier, rule_deviation, rule_cluster.
  destruct (f =? -1); destruct (0.15 <? abs s)%float;
    destruct (in_list c [6; 7]) eqn:Hc; case_decide as Hd;
    try reflexivity; exfalso.
  all: first [ apply Hd, in_list_6_7, Hc
             | apply in_list_6_7 in Hd; congruence ].
Qed.

Lemma risk_level_cases (n : Z) :
  (risk_level n = "HIGH" ↔ 60 ≤ n) ∧
  (risk_level n = "MEDIUM" ↔ 30 ≤ n < 60) ∧
  (risk_level n = "LOW" ↔ n < 30).
Proof.
  unfold risk_level.
  destruct (Z.geb_spec n 60), (Z.geb_spec n 30);
    repeat split; intros; try lia; try discriminate; reflexivity.
Qed.

Lemma risk_score_values (f : Z) (s : float) (c : Z) :
  risk_score f s c ∈ [0; 10; 20; 30; 40; 50; 60; 70].
Proof.
  rewrite risk_score_sum. unfold rule_outlier, rule_deviation, rule_cluster.
  destruct (f =? -1); destruct (0.15 <? abs s)%float;
    destruct (decide _); apply list_elem_of_In; simpl; lia.
Qed.

(** C1: for every anomaly flag, anomaly score and cluster id the score lies
    in [0,70] and is the sum of the three additive rules (+40 for an outlier
    verdict, +10 when the absolute anomaly score exceeds 0.15, +20 for a
    cluster in {6,7}); the level is HIGH iff score >= 60, MEDIUM iff
    30 <= score < 60 and LOW iff score < 30, so that a score of exactly 30
    is MEDIUM and one of exactly 60 is HIGH. *)
Theorem classify_correct (anomaly_flag : Z) (anomaly_score : float)
    (cluster_id : Z) :
  let score := risk_score anomaly_flag anomaly_score cluster_id in
  let level := risk_level score in
  0 ≤ score ≤ 70 ∧
  score = rule_outlier anomaly_flag + rule_deviation anomaly_score
          + rule_cluster cluster_id ∧
  (level = "HIGH" ↔ 60 ≤ score) ∧
  (level = "MEDIUM" ↔ 30 ≤ score < 60) ∧
  (level = "LOW" ↔ score < 30) ∧
  risk_level 30 = "MEDIUM" ∧ risk_level 60 = "HIGH".
Proof.
  cbv zeta. split; [| split; [apply risk_score_sum |]].
  - rewrite risk_score_sum. unfold rule_outlier, rule_deviation, rule_cluster.
    destruct (anomaly_flag =? -1); destruct (0.15 <? abs anomaly_score)%float;
      case_decide; lia.
  - pose proof (risk_level_cases
      (risk_score anomaly_flag anomaly_score cluster_id)) as (H1 & H2 & H3).
    repeat split; try tauto; apply H2 || apply H3 || idtac; tauto.
Qed.

Ltac run_endpoint :=
  cbv beta iota zeta delta
    [serve iot_ingest mbind M_bind mret M_ret lift db_add db_commit db_close
     create_task logger db_new db_rows loop_ready ws_calls log].

Ltac unfold_outcome :=
  unfold the_rows, the_task, the_result, the_alert, the_risk_log,
    the_cluster_log, the_anomaly_log, the_level, the_score in *.

(** A call whose scoring raises: the exception leaves the endpoint, and
    the world is the one before the call with the session closed. *)
Lemma serve_scoring_raises env data w e :
  scoring env data = Raise e →
  serve env data w = (Raise e, db_close w).
Proof.
  unfold scoring. run_endpoint.
  destruct (get_model env) as [model|e0]; [|congruence].
  destruct (detect_anomalies model (model_frame data)) as [frame|e0];
    [|congruence].
  destruct (iloc0 frame) as [anomaly|e0]; [|congruence].
  destruct (cluster model (model_frame data)) as [c|e0]; [|congruence].
  discriminate.
Qed.

(** A call whose scoring returns and whose commit raises. *)
Lemma serve_commit_raises env data w anomaly c e :
  scoring env data = Ok (anomaly, c) →
  commit_error env (the_rows data anomaly c) = Some e →
  serve env data w = (Raise e, db_close w).
Proof.
  unfold scoring. run_endpoint.
  destruct (get_model env) as [model|e0]; [|congruence].
  destruct (detect_anomalies model (model_frame data)) as [frame|e0];
    [|congruence].
  destruct (iloc0 frame) as [anomaly0|e0]; [|congruence].
  destruct (cluster model (model_frame data)) as [c0|e0]; [|congruence].
  intros [= -> ->]. unfold_outcome.
  destruct (String.eqb _ "HIGH"); run_endpoint; simpl; intros ->; reflexivity.
Qed.

(** A call whose scoring returns and whose commit goes through. *)
Lemma serve_returns env data w anomaly c :
  scoring env data = Ok (anomaly, c) →
  commit_error env (the_rows data anomaly c) = None →
  serve env data w =
    (Ok (the_result anomaly c),
     {| db_new := [];
        db_rows := db_rows w ++ the_rows data anomaly c;
        loop_ready := loop_ready w ++ [the_task data anomaly c];
        ws_calls := ws_calls w;
        log := log w ++ [log_info (IoTInput.store data) (IoTInput.dept data)
                           (the_level anomaly c)] |}).
Proof.
  unfold scoring. run_endpoint.
  destruct (get_model env) as [model|e0]; [|congruence].
  destruct (detect_anomalies model (model_frame data)) as [frame|e0];
    [|congruence].
  destruct (iloc0 frame) as [anomaly0|e0]; [|congruence].
  destruct (cluster model (model_frame data)) as [c0|e0]; [|congruence].
  intros [= -> ->]. unfold_outcome.
  destruct (String.eqb _ "HIGH"); run_endpoint; simpl; intros ->; reflexivity.
Qed.

(** Every call that returns is of the last kind. *)
Lemma serve_Ok_inv env data w r w' :
  serve env data w = (Ok r, w') →
  ∃ anomaly c,
    scoring env data = Ok (anomaly, c) ∧
    commit_error env (the_rows data anomaly c) = None ∧
    r = the_result anomaly c ∧
    w' = {| db_new := [];
            db_rows := db_rows w ++ the_rows data anomaly c;
            loop_ready := loop_ready w ++ [the_task data anomaly c];
            ws_calls := ws_calls w;
            log := log w ++ [log_info (IoTInput.store data)
                               (IoTInput.dept data) (the_level anomaly c)] |}.
Proof.
  intros H.
  destruct (scoring env data) as [[anomaly c]|e] eqn:Hs.
  - destruct (commit_error env (the_rows data anomaly c)) as [e|] eqn:Hc.
    + rewrite (serve_commit_raises _ _ _ _ _ _ Hs Hc) in H. discriminate.
    + rewrite (serve_returns _ _ _ _ _ Hs Hc) in H.
      injection H as <- <-. eauto 10.
  - rewrite (serve_scoring_raises _ _ _ _ Hs) in H. discriminate.
Qed.

(** ** Reading the dictionaries *)

Lemma result_status a c : the_result a c !! "status" = Some (VStr "success").
Proof. unfold the_result. by simplify_map_eq. Qed.

Lemma result_anomaly a c :
  the_result a c !! "anomaly" = Some (VInt (AnomalyRow.anomaly a)).
Proof. unfold the_result. by simplify_map_eq. Qed.

Lemma result_anomaly_score a c :
  the_result a c !! "anomaly_score"
  = Some (VFloat (AnomalyRow.anomaly_score a)).
Proof. unfold the_result. by simplify_map_eq. Qed.

Lemma result_cluster a c : the_result a c !! "cluster" = Some (VInt c).
Proof. unfold the_result. by simplify_map_eq. Qed.

Lemma result_risk_level a c :
  the_result a c !! "risk_level" = Some (VStr (the_level a c)).
Proof. unfold the_result. by simplify_map_eq. Qed.

Lemma result_risk_score a c :
  the_result a c !! "risk_score" = Some (VInt (the_score a c)).
Proof. unfold the_result. by simplify_map_eq. Qed.

Lemma result_dom a c :
  dom (the_result a c)
  = ({[ "status"; "anomaly"; "anomaly_score"; "cluster"; "risk_level";
        "risk_score" ]} : gset string).
Proof. unfold the_result. rewrite !dom_insert_L, dom_empty_L. set_solver. Qed.

Lemma data_store data :
  IoTInput.dict data !! "store" = Some (VInt (IoTInput.store data)).
Proof. unfold IoTInput.dict. by simplify_map_eq. Qed.

Lemma data_dept data :
  IoTInput.dict data !! "dept" = Some (VInt (IoTInput.dept data)).
Proof. unfold IoTInput.dict. by simplify_map_eq. Qed.

Lemma result_is_high a c :
  get_is_str (the_result a c) "risk_level" "HIGH"
  = String.eqb (the_level a c) "HIGH".
Proof. unfold get_is_str. by rewrite result_risk_level. Qed.

Lemma the_level_values a c : the_level a c ∈ ["LOW"; "MEDIUM"; "HIGH"].
Proof.
  unfold the_level, risk_level.
  destruct (_ >=? 60); [|destruct (_ >=? 30)]; set_solver.
Qed.

(** ** The rows of a call *)

Lemma the_rows_anomaly data a c :
  omap as_anomaly (the_rows data a c) = [the_anomaly_log data a].
Proof. unfold the_rows. by destruct (String.eqb _ _). Qed.

Lemma the_rows_cluster data a c :
  omap as_cluster (the_rows data a c) = [the_cluster_log data c].
Proof. unfold the_rows. by destruct (String.eqb _ _). Qed.

Lemma the_rows_risk data a c :
  omap as_risk (the_rows data a c) = [the_risk_log data a c].
Proof. unfold the_rows. by destruct (String.eqb _ _). Qed.

Lemma the_rows_alert data a c :
  omap as_alert (the_rows data a c)
  = if String.eqb (the_level a c) "HIGH" then [the_alert data a c] else [].
Proof. unfold the_rows. by destruct (String.eqb _ _). Qed.

(** ** The broadcast task *)

Ltac run_broadcast :=
  cbv beta iota zeta delta
    [run_task broadcast_update try_except_Exception manager_call logger
     mbind M_bind mret M_ret db_new db_rows loop_ready ws_calls log fst snd].

(** The calls the task of a returned call makes when the manager returns
    normally from the update broadcast and from the alert broadcast. *)
Lemma run_the_task_calls env data a c w :
  let update := broadcast_iot_update (IoTInput.dict data) (the_result a c) in
  let alert :=
    broadcast_alert (Some (VInt (IoTInput.store data)))
      (Some (VInt (IoTInput.dept data)))
      "⚠ High risk detected from IoT update"
      (Some (VInt (the_score a c))) in
  manager_error env update = None →
  ws_calls (snd (run_task env (the_task data a c) w))
  = ws_calls w ++
    (if String.eqb (the_level a c) "HIGH" then [update; alert] else [update]).
Proof.
  intros update alert Hu. unfold the_task. run_broadcast.
  fold update. rewrite Hu, result_is_high, data_store, data_dept,
    result_risk_score.
  destruct (String.eqb _ "HIGH"); [|reflexivity].
  fold alert. destruct (manager_error env alert) as [[n|n]|];
    cbn; by rewrite <- app_assoc.
Qed.

(** The task touches neither the session nor the stored rows, and no
    [Exception] leaves it. *)
Lemma run_task_db env t w :
  db_rows (snd (run_task env t w)) = db_rows w ∧
  db_new (snd (run_task env t w)) = db_new w ∧
  ∀ n, fst (run_task env t w) ≠ Some (Exc n).
Proof.
  destruct t as [d r]. run_broadcast.
  destruct (manager_error env (broadcast_iot_update d r)) as [[n|n]|];
    [by cbn | by cbn |].
  destruct (get_is_str r "risk_level" "HIGH"); [|by cbn].
  destruct (manager_error env _) as [[n|n]|]; by cbn.
Qed.

Lemma run_tasks_db env ts w :
  db_rows (fold_left (λ w c, snd (run_task env c w)) ts w) = db_rows w.
Proof.
  revert w. induction ts as [|t ts IH]; intros w; [done|].
  cbn [fold_left]. rewrite IH. apply run_task_db.
Qed.

Lemma run_until_idle_db env w : db_rows (run_until_idle env w) = db_rows w.
Proof. unfold run_until_idle. by rewrite run_tasks_db. Qed.

(** The endpoint never reads the manager. *)
Lemma serve_with_manager env mgr data w :
  serve (with_manager env mgr) data w = serve env data w.
Proof. reflexivity. Qed.

(** ** The alert row *)

(** C2: for every ingest call that completes, an Alert row (store id,
    department id, message, risk score) is persisted if and only if the
    risk level computed in that call is HIGH; a LOW or a MEDIUM call
    persists none. *)
Theorem alert_iff_high env data w r w' :
  serve env data w = (Ok r, w') →
  ∃ new k,
    db_rows w' = db_rows w ++ new ∧
    omap as_risk new = [k] ∧
    r !! "risk_level" = Some (VStr (RiskLog.risk_level k)) ∧
    ((∃ a, RAlert a ∈ new) ↔ RiskLog.risk_level k = "HIGH") ∧
    (RiskLog.risk_level k = "HIGH" →
     omap as_alert new =
       [ {| Alert.store := IoTInput.store data;
            Alert.dept := IoTInput.dept data;
            Alert.message := "⚠ High risk detected from IoT update";
            Alert.risk_score := RiskLog.risk_score k |} ]) ∧
    (RiskLog.risk_level k = "LOW" ∨ RiskLog.risk_level k = "MEDIUM" →
     omap as_alert new = []).
Proof.
  intros (a & c & _ & _ & -> & ->)%serve_Ok_inv.
  exists (the_rows data a c), (the_risk_log data a c).
  split; [reflexivity|]. split; [apply the_rows_risk|].
  split; [apply result_risk_level|].
  rewrite the_rows_alert. unfold the_rows. cbn [RiskLog.risk_level the_risk_log].
  destruct (String.eqb_spec (the_level a c) "HIGH") as [Hh|Hh].
  - split; [|split]; [|done|intros [Hl|Hl]; congruence].
    split; [done|]. intros _. exists (the_alert data a c). set_solver.
  - split; [|split]; [|done|done].
    split; [|done]. intros [x Hx]. rewrite app_nil_r in Hx.
    apply list_elem_of_In in Hx. cbn in Hx.
    destruct Hx as [|[|[|[]]]]; discriminate.
Qed.

Lemma alert_iff_high_witness :
  let r := the_result Sample.outlier 7 in
  let w' := snd (serve Sample.high Sample.data Sample.world) in
  serve Sample.high Sample.data Sample.world = (Ok r, w') ∧
  ∃ new k,
    db_rows w' = db_rows Sample.world ++ new ∧
    omap as_risk new = [k] ∧
    r !! "risk_level" = Some (VStr (RiskLog.risk_level k)) ∧
    ((∃ a, RAlert a ∈ new) ↔ RiskLog.risk_level k = "HIGH") ∧
    (RiskLog.risk_level k = "HIGH" →
     omap as_alert new =
       [ {| Alert.store := 3; Alert.dept := 14;
            Alert.message := "⚠ High risk detected from IoT update";
            Alert.risk_score := RiskLog.risk_score k |} ]) ∧
    (RiskLog.risk_level k = "LOW" ∨ RiskLog.risk_level k = "MEDIUM" →
     omap as_alert new = []).
Proof.
  intros r w'.
  assert (serve Sample.high Sample.data Sample.world = (Ok r, w')) as H
    by (vm_compute; reflexivity).
  split; [exact H|].
  exact (alert_iff_high Sample.high Sample.data Sample.world r w' H).
Defined.

(** The reading of the specification with a normal verdict, score 0.05 and
    cluster 1: score 0, level LOW, three rows and no alert. *)
Example low_reading_no_alert :
  ∃ r w',
    serve Sample.low Sample.data Sample.world = (Ok r, w') ∧
    r !! "risk_score" = Some (VInt 0) ∧
    r !! "risk_level" = Some (VStr "LOW") ∧
    length (db_rows w') = 3%nat ∧
    omap as_alert (db_rows w') = [].
Proof.
  eexists _, _. split; [vm_compute; reflexivity|]. by vm_compute.
Qed.

(** ** A call whose scoring fails *)

(** C3: for every ingest call in which anomaly detection or cluster
    assignment fails, the call aborts with the exception of the model:
    no row of any table is persisted, the row staged before the failure is
    dropped with the session, no broadcast task is queued and no call is
    made to the manager. *)
Theorem scoring_failure_aborts env data w model e :
  get_model env = Ok model →
  detect_anomalies model (model_frame data) = Raise e ∨
  (∃ frame anomaly,
     detect_anomalies model (model_frame data) = Ok frame ∧
     iloc0 frame = Ok anomaly ∧
     cluster model (model_frame data) = Raise e) →
  ∃ w',
    serve env data w = (Raise e, w') ∧
    db_rows w' = db_rows w ∧
    db_new w' = [] ∧
    loop_ready w' = loop_ready w ∧
    ws_calls w' = ws_calls w ∧
    (loop_ready w = [] →
     ingest_call env data w = (Raise e, w') ∧
     db_rows (snd (ingest_call env data w)) = db_rows w ∧
     ws_calls (snd (ingest_call env data w)) = ws_calls w).
Proof.
  intros Hm Hfail.
  assert (scoring env data = Raise e) as Hs.
  { unfold scoring. rewrite Hm.
    destruct Hfail as [->|(frame & anomaly & -> & -> & ->)]; reflexivity. }
  exists (db_close w). pose proof (serve_scoring_raises env data w e Hs) as H.
  do 5 (split; [done|]). intros Hq.
  assert (ingest_call env data w = (Raise e, db_close w)) as Hi.
  { unfold ingest_call. rewrite H. unfold run_until_idle, db_close. cbn.
    rewrite Hq. reflexivity. }
  rewrite Hi. done.
Qed.

Lemma scoring_failure_aborts_witness :
  let env := Sample.cluster_down in
  let model := Sample.model (-1) 0.2 (Raise (Exc "ValueError")) in
  let e := Exc "ValueError" in
  (get_model env = Ok model ∧
   (detect_anomalies model (model_frame Sample.data) = Raise e ∨
    ∃ frame anomaly,
      detect_anomalies model (model_frame Sample.data) = Ok frame ∧
      iloc0 frame = Ok anomaly ∧
      cluster model (model_frame Sample.data) = Raise e)) ∧
  ∃ w',
    serve env Sample.data Sample.world = (Raise e, w') ∧
    db_rows w' = db_rows Sample.world ∧
    db_new w' = [] ∧
    loop_ready w' = loop_ready Sample.world ∧
    ws_calls w' = ws_calls Sample.world ∧
    (loop_ready Sample.world = [] →
     ingest_call env Sample.data Sample.world = (Raise e, w') ∧
     db_rows (snd (ingest_call env Sample.data Sample.world))
     = db_rows Sample.world ∧
     ws_calls (snd (ingest_call env Sample.data Sample.world))
     = ws_calls Sample.world).
Proof.
  intros env model e.
  assert (get_model env = Ok model) as Hm by reflexivity.
  assert (detect_anomalies model (model_frame Sample.data) = Raise e ∨
          ∃ frame anomaly,
            detect_anomalies model (model_frame Sample.data) = Ok frame ∧
            iloc0 frame = Ok anomaly ∧
            cluster model (model_frame Sample.data) = Raise e) as Hf.
  { right. exists [Sample.outlier], Sample.outlier.
    repeat split; reflexivity. }
  split; [split; [exact Hm | exact Hf] |].
  exact (scoring_failure_aborts env Sample.data Sample.world model e Hm Hf).
Defined.

(** ** The three rows of a call *)

(** C4, as amended: for every ingest call that completes, exactly one
    AnomalyLog, one ClusterLog and one RiskLog are persisted; the cluster of
    the RiskLog is the cluster of the ClusterLog, and its anomaly column is
    the verdict code of the model, of which the flag of the AnomalyLog is
    the test "code = -1". *)
Theorem completed_call_one_row_each env data w r w' :
  serve env data w = (Ok r, w') →
  ∃ new, db_rows w' = db_rows w ++ new ∧ one_row_each new.
Proof.
  intros (a & c & _ & _ & -> & ->)%serve_Ok_inv.
  exists (the_rows data a c). split; [reflexivity|].
  exists (the_anomaly_log data a), (the_cluster_log data c),
    (the_risk_log data a c).
  split; [apply the_rows_anomaly|]. split; [apply the_rows_cluster|].
  split; [apply the_rows_risk|]. split; reflexivity.
Qed.

Lemma completed_call_one_row_each_witness :
  let r := the_result Sample.normal 1 in
  let w' := snd (serve Sample.low Sample.data Sample.world) in
  serve Sample.low Sample.data Sample.world = (Ok r, w') ∧
  ∃ new, db_rows w' = db_rows Sample.world ++ new ∧ one_row_each new.
Proof.
  intros r w'.
  assert (serve Sample.low Sample.data Sample.world = (Ok r, w')) as H
    by (vm_compute; reflexivity).
  split; [exact H|].
  exact (completed_call_one_row_each Sample.low Sample.data Sample.world
           r w' H).
Defined.

(** C4 as stated fails. A call whose anomaly detection raises persists no
    row at all; and in a completed call with a normal verdict the anomaly
    column of the RiskLog is 1 while the flag of the AnomalyLog is False,
    which is 0 as a number. *)
Lemma not_every_call_one_row_each :
  (¬ ∃ new,
     db_rows (snd (serve Sample.detect_down Sample.data Sample.world))
     = db_rows Sample.world ++ new ∧ one_row_each new) ∧
  (∃ a k,
     omap as_anomaly
       (db_rows (snd (serve Sample.low Sample.data Sample.world))) = [a] ∧
     omap as_risk
       (db_rows (snd (serve Sample.low Sample.data Sample.world))) = [k] ∧
     RiskLog.anomaly k ≠ Z.b2z (AnomalyLog.is_anomaly a)).
Proof.
  split.
  - intros (new & Hnew & a & c & k & Ha & _).
    vm_compute in Hnew. subst new. discriminate Ha.
  - eexists _, _. split; [vm_compute; reflexivity|].
    split; [vm_compute; reflexivity|]. vm_compute. discriminate.
Qed.

(** ** The reading of the specification: outlier, score 0.20, cluster 7 *)

(** C5: when the model marks the record an outlier with anomaly score 0.20
    and assigns cluster 7, the call (its commit going through) computes
    risk score 70 and level HIGH and persists an Alert row. *)
Theorem outlier_cluster7_alert env data w model rest :
  get_model env = Ok model →
  detect_anomalies model (model_frame data)
  = Ok ({| AnomalyRow.anomaly := -1; AnomalyRow.anomaly_score := 0.2 |}
        :: rest) →
  cluster model (model_frame data) = Ok 7 →
  (∀ rows, commit_error env rows = None) →
  ∃ r w' new k,
    serve env data w = (Ok r, w') ∧
    r !! "risk_score" = Some (VInt 70) ∧
    r !! "risk_level" = Some (VStr "HIGH") ∧
    db_rows w' = db_rows w ++ new ∧
    omap as_risk new = [k] ∧
    RiskLog.risk_score k = 70 ∧
    RiskLog.risk_level k = "HIGH" ∧
    omap as_alert new =
      [ {| Alert.store := IoTInput.store data;
           Alert.dept := IoTInput.dept data;
           Alert.message := "⚠ High risk detected from IoT update";
           Alert.risk_score := 70 |} ].
Proof.
  intros Hm Hd Hc Hcommit.
  set (a := {| AnomalyRow.anomaly := -1; AnomalyRow.anomaly_score := 0.2 |}).
  assert (scoring env data = Ok (a, 7)) as Hs.
  { unfold scoring. by rewrite Hm, Hd, Hc. }
  assert (the_score a 7 = 70) as Hscore by reflexivity.
  assert (the_level a 7 = "HIGH") as Hlevel by reflexivity.
  eexists _, _, (the_rows data a 7), (the_risk_log data a 7).
  split; [apply (serve_returns _ _ _ _ _ Hs (Hcommit _))|].
  split; [by rewrite result_risk_score, Hscore|].
  split; [by rewrite result_risk_level, Hlevel|].
  split; [reflexivity|]. split; [apply the_rows_risk|].
  split; [exact Hscore|]. split; [exact Hlevel|].
  rewrite the_rows_alert, Hlevel. reflexivity.
Qed.

Lemma outlier_cluster7_alert_witness :
  let model := Sample.model (-1) 0.2 (Ok 7) in
  (get_model Sample.high = Ok model ∧
   detect_anomalies model (model_frame Sample.data)
   = Ok [ {| AnomalyRow.anomaly := -1; AnomalyRow.anomaly_score := 0.2 |} ] ∧
   cluster model (model_frame Sample.data) = Ok 7 ∧
   (∀ rows, commit_error Sample.high rows = None)) ∧
  ∃ r w' new k,
    serve Sample.high Sample.data Sample.world = (Ok r, w') ∧
    r !! "risk_score" = Some (VInt 70) ∧
    r !! "risk_level" = Some (VStr "HIGH") ∧
    db_rows w' = db_rows Sample.world ++ new ∧
    omap as_risk new = [k] ∧
    RiskLog.risk_score k = 70 ∧
    RiskLog.risk_level k = "HIGH" ∧
    omap as_alert new =
      [ {| Alert.store := 3; Alert.dept := 14;
           Alert.message := "⚠ High risk detected from IoT update";
           Alert.risk_score := 70 |} ].
Proof.
  intros model.
  split; [repeat split; reflexivity|].
  exact (outlier_cluster7_alert Sample.high Sample.data Sample.world
           model [] eq_refl eq_refl eq_refl (λ _, eq_refl)).
Defined.

(** ** The response *)

(** C8: the response of every call that completes is the dictionary with
    exactly the keys status, anomaly, anomaly_score, cluster, risk_level and
    risk_score: status is "success", anomaly the verdict of the model (an
    int), anomaly_score its score (a float), cluster the cluster id (an
    int), risk_level one of LOW, MEDIUM and HIGH, and risk_score the score
    (an int). *)
Theorem response_summary env data w r w' :
  serve env data w = (Ok r, w') →
  ∃ anomaly cluster_id,
    let score :=
      risk_score (AnomalyRow.anomaly anomaly)
        (AnomalyRow.anomaly_score anomaly) cluster_id in
    scoring env data = Ok (anomaly, cluster_id) ∧
    fst (ingest_call env data w) = Ok r ∧
    dom r = ({[ "status"; "anomaly"; "anomaly_score"; "cluster";
                "risk_level"; "risk_score" ]} : gset string) ∧
    r !! "status" = Some (VStr "success") ∧
    r !! "anomaly" = Some (VInt (AnomalyRow.anomaly anomaly)) ∧
    r !! "anomaly_score" = Some (VFloat (AnomalyRow.anomaly_score anomaly)) ∧
    r !! "cluster" = Some (VInt cluster_id) ∧
    r !! "risk_level" = Some (VStr (risk_level score)) ∧
    risk_level score ∈ ["LOW"; "MEDIUM"; "HIGH"] ∧
    r !! "risk_score" = Some (VInt score).
Proof.
  intros H. pose proof H as (a & c & Hs & _ & -> & ->)%serve_Ok_inv.
  exists a, c. cbv zeta. split; [exact Hs|].
  split; [unfold ingest_call; by rewrite H|].
  split; [apply result_dom|]. split; [apply result_status|].
  split; [apply result_anomaly|]. split; [apply result_anomaly_score|].
  split; [apply result_cluster|]. split; [apply result_risk_level|].
  split; [apply the_level_values|]. apply result_risk_score.
Qed.

Lemma response_summary_witness :
  let r := the_result Sample.normal 1 in
  let w' := snd (serve Sample.low Sample.data Sample.world) in
  serve Sample.low Sample.data Sample.world = (Ok r, w') ∧
  ∃ anomaly cluster_id,
    let score :=
      risk_score (AnomalyRow.anomaly anomaly)
        (AnomalyRow.anomaly_score anomaly) cluster_id in
    scoring Sample.low Sample.data = Ok (anomaly, cluster_id) ∧
    fst (ingest_call Sample.low Sample.data Sample.world) = Ok r ∧
    dom r = ({[ "status"; "anomaly"; "anomaly_score"; "cluster";
                "risk_level"; "risk_score" ]} : gset string) ∧
    r !! "status" = Some (VStr "success") ∧
    r !! "anomaly" = Some (VInt (AnomalyRow.anomaly anomaly)) ∧
    r !! "anomaly_score" = Some (VFloat (AnomalyRow.anomaly_score anomaly)) ∧
    r !! "cluster" = Some (VInt cluster_id) ∧
    r !! "risk_level" = Some (VStr (risk_level score)) ∧
    risk_level score ∈ ["LOW"; "MEDIUM"; "HIGH"] ∧
    r !! "risk_score" = Some (VInt score).
Proof.
  intros r w'.
  assert (serve Sample.low Sample.data Sample.world = (Ok r, w')) as H
    by (vm_compute; reflexivity).
  split; [exact H|].
  exact (response_summary Sample.low Sample.data Sample.world r w' H).
Defined.

(** ** The values of the score *)

(** C9: for every verdict, anomaly score and cluster id the risk score is
    one of 0, 10, 20, 30, 40, 50, 60 and 70; the level is LOW exactly on
    0, 10 and 20, MEDIUM exactly on 30, 40 and 50, and HIGH exactly on 60
    and 70; the two thresholds 30 and 60 are scores of some input. *)
Theorem score_values_and_levels :
  (∀ (anomaly_flag : Z) (anomaly_score : float) (cluster_id : Z),
     let score := risk_score anomaly_flag anomaly_score cluster_id in
     score ∈ [0; 10; 20; 30; 40; 50; 60; 70] ∧
     (risk_level score = "LOW" ↔ score ∈ [0; 10; 20]) ∧
     (risk_level score = "MEDIUM" ↔ score ∈ [30; 40; 50]) ∧
     (risk_level score = "HIGH" ↔ score ∈ [60; 70])) ∧
  (∃ anomaly_flag anomaly_score cluster_id,
     risk_score anomaly_flag anomaly_score cluster_id = 30) ∧
  (∃ anomaly_flag anomaly_score cluster_id,
     risk_score anomaly_flag anomaly_score cluster_id = 60).
Proof.
  split; [|split].
  - intros f s c score. pose proof (risk_score_values f s c) as Hv.
    fold score in Hv. split; [exact Hv|].
    destruct (risk_level_cases score) as (Hh & Hm & Hl).
    rewrite Hl, Hm, Hh. apply list_elem_of_In in Hv.
    rewrite !list_elem_of_In. cbn in *. lia.
  - exists 1, 0.2%float, 6. reflexivity.
  - exists (-1), 0.05%float, 7. reflexivity.
Qed.

(** ** The broadcast of a completed call *)

Lemma run_single_task env w t :
  loop_ready w = [t] →
  ws_calls (run_until_idle env w)
  = ws_calls (snd (run_task env t
      {| db_new := db_new w; db_rows := db_rows w; loop_ready := [];
         ws_calls := ws_calls w; log := log w |})).
Proof. intros H. unfold run_until_idle. rewrite H. reflexivity. Qed.

(** C6: in every call that reaches the broadcast step, the task is queued
    with the response already built (it carries it), the endpoint returns
    without any call to the manager having been made, and whatever the
    manager does when the task runs (return, raise an Exception, raise
    outside Exception) the call answers the same response, stores the same
    rows, and no Exception leaves the task. *)
Theorem broadcast_cannot_fail_ingest env data w r w' :
  serve env data w = (Ok r, w') →
  loop_ready w'
  = loop_ready w ++ [broadcast_update_coro (IoTInput.dict data) r] ∧
  ws_calls w' = ws_calls w ∧
  ∀ mgr : ws_call → option exc,
    fst (ingest_call (with_manager env mgr) data w) = Ok r ∧
    db_rows (snd (ingest_call (with_manager env mgr) data w)) = db_rows w' ∧
    ∀ w2 n,
      fst (run_task (with_manager env mgr)
             (broadcast_update_coro (IoTInput.dict data) r) w2)
      ≠ Some (Exc n).
Proof.
  intros H. pose proof H as (a & c & _ & _ & -> & ->)%serve_Ok_inv.
  split; [reflexivity|]. split; [reflexivity|]. intros mgr.
  unfold ingest_call. rewrite serve_with_manager, H.
  split; [reflexivity|]. split; [apply run_until_idle_db|].
  intros w2. apply run_task_db.
Qed.

Lemma broadcast_cannot_fail_ingest_witness :
  let r := the_result Sample.outlier 7 in
  let w' := snd (serve Sample.high Sample.data Sample.world) in
  serve Sample.high Sample.data Sample.world = (Ok r, w') ∧
  loop_ready w'
  = loop_ready Sample.world
    ++ [broadcast_update_coro (IoTInput.dict Sample.data) r] ∧
  ws_calls w' = ws_calls Sample.world ∧
  ∀ mgr : ws_call → option exc,
    fst (ingest_call (with_manager Sample.high mgr) Sample.data Sample.world)
    = Ok r ∧
    db_rows
      (snd (ingest_call (with_manager Sample.high mgr) Sample.data
              Sample.world))
    = db_rows w' ∧
    ∀ w2 n,
      fst (run_task (with_manager Sample.high mgr)
             (broadcast_update_coro (IoTInput.dict Sample.data) r) w2)
      ≠ Some (Exc n).
Proof.
  intros r w'.
  assert (serve Sample.high Sample.data Sample.world = (Ok r, w')) as H
    by (vm_compute; reflexivity).
  split; [exact H|].
  exact (broadcast_cannot_fail_ingest Sample.high Sample.data Sample.world
           r w' H).
Defined.

(** C7: in every completed call whose update broadcast returns (as the
    manager of the specification always does), the task of a HIGH call
    makes exactly two calls to the manager, the IoT update first and the
    alert second, and the task of any other call makes the IoT update call
    only. *)
Theorem update_then_alert env data w r w' :
  serve env data w = (Ok r, w') →
  manager_error env (broadcast_iot_update (IoTInput.dict data) r) = None →
  ∃ level score,
    let task := broadcast_update_coro (IoTInput.dict data) r in
    let update := broadcast_iot_update (IoTInput.dict data) r in
    let alert :=
      broadcast_alert (Some (VInt (IoTInput.store data)))
        (Some (VInt (IoTInput.dept data)))
        "⚠ High risk detected from IoT update" (Some (VInt score)) in
    r !! "risk_level" = Some (VStr level) ∧
    r !! "risk_score" = Some (VInt score) ∧
    loop_ready w' = loop_ready w ++ [task] ∧
    (∀ w2,
       (level = "HIGH" →
        ws_calls (snd (run_task env task w2))
        = ws_calls w2 ++ [update; alert]) ∧
       (level ≠ "HIGH" →
        ws_calls (snd (run_task env task w2)) = ws_calls w2 ++ [update])) ∧
    (loop_ready w = [] →
     (level = "HIGH" →
      ws_calls (snd (ingest_call env data w))
      = ws_calls w ++ [update; alert]) ∧
     (level ≠ "HIGH" →
      ws_calls (snd (ingest_call env data w)) = ws_calls w ++ [update])).
Proof.
  intros H. pose proof H as (a & c & _ & _ & -> & ->)%serve_Ok_inv.
  intros Hu. exists (the_level a c), (the_score a c). cbv zeta.
  split; [apply result_risk_level|]. split; [apply result_risk_score|].
  split; [reflexivity|].
  assert (∀ w2,
    ws_calls (snd (run_task env (the_task data a c) w2))
    = ws_calls w2 ++
      (if String.eqb (the_level a c) "HIGH"
       then [broadcast_iot_update (IoTInput.dict data) (the_result a c);
             broadcast_alert (Some (VInt (IoTInput.store data)))
               (Some (VInt (IoTInput.dept data)))
               "⚠ High risk detected from IoT update"
               (Some (VInt (the_score a c)))]
       else [broadcast_iot_update (IoTInput.dict data) (the_result a c)]))
    as Hrun.
  { intros w2. by apply run_the_task_calls. }
  fold (the_task data a c). split.
  - intros w2. rewrite Hrun.
    destruct (String.eqb_spec (the_level a c) "HIGH"); by split.
  - intros Hq. unfold ingest_call. rewrite H. cbv beta iota. cbn [snd].
    rewrite (run_single_task env _ (the_task data a c))
      by (cbn; by rewrite Hq).
    rewrite Hrun. cbn.
    destruct (String.eqb_spec (the_level a c) "HIGH"); by split.
Qed.

Lemma update_then_alert_witness :
  let r := the_result Sample.outlier 7 in
  let w' := snd (serve Sample.high Sample.data Sample.world) in
  (serve Sample.high Sample.data Sample.world = (Ok r, w') ∧
   manager_error Sample.high
     (broadcast_iot_update (IoTInput.dict Sample.data) r) = None) ∧
  ∃ level score,
    let task := broadcast_update_coro (IoTInput.dict Sample.data) r in
    let update := broadcast_iot_update (IoTInput.dict Sample.data) r in
    let alert :=
      broadcast_alert (Some (VInt 3)) (Some (VInt 14))
        "⚠ High risk detected from IoT update" (Some (VInt score)) in
    r !! "risk_level" = Some (VStr level) ∧
    r !! "risk_score" = Some (VInt score) ∧
    loop_ready w' = loop_ready Sample.world ++ [task] ∧
    (∀ w2,
       (level = "HIGH" →
        ws_calls (snd (run_task Sample.high task w2))
        = ws_calls w2 ++ [update; alert]) ∧
       (level ≠ "HIGH" →
        ws_calls (snd (run_task Sample.high task w2))
        = ws_calls w2 ++ [update])) ∧
    (loop_ready Sample.world = [] →
     (level = "HIGH" →
      ws_calls (snd (ingest_call Sample.high Sample.data Sample.world))
      = ws_calls Sample.world ++ [update; alert]) ∧
     (level ≠ "HIGH" →
      ws_calls (snd (ingest_call Sample.high Sample.data Sample.world))
      = ws_calls Sample.world ++ [update])).
Proof.
  intros r w'.
  assert (serve Sample.high Sample.data Sample.world = (Ok r, w')) as H
    by (vm_compute; reflexivity).
  split; [split; [exact H | reflexivity] |].
  exact (update_then_alert Sample.high Sample.data Sample.world r w' H
           eq_refl).
Defined.

(** C10: in every completed call with risk level HIGH (its update broadcast
    returning), the persisted Alert row and the alert notification handed
    to the manager carry the same message "⚠ High risk detected from IoT
    update", the store id and the department id of the input record, and
    the risk score of the RiskLog row of that call. *)
Theorem alert_row_and_notification_agree env data w r w' :
  serve env data w = (Ok r, w') →
  r !! "risk_level" = Some (VStr "HIGH") →
  manager_error env (broadcast_iot_update (IoTInput.dict data) r) = None →
  ∃ new a k,
    db_rows w' = db_rows w ++ new ∧
    omap as_alert new = [a] ∧
    omap as_risk new = [k] ∧
    Alert.message a = "⚠ High risk detected from IoT update" ∧
    Alert.store a = IoTInput.store data ∧
    Alert.dept a = IoTInput.dept data ∧
    Alert.risk_score a = RiskLog.risk_score k ∧
    ∀ w2,
      ws_calls (snd (run_task env
                       (broadcast_update_coro (IoTInput.dict data) r) w2))
      = ws_calls w2 ++
        [ broadcast_iot_update (IoTInput.dict data) r;
          broadcast_alert (Some (VInt (Alert.store a)))
            (Some (VInt (Alert.dept a))) (Alert.message a)
            (Some (VInt (Alert.risk_score a))) ].
Proof.
  intros H. pose proof H as (a & c & _ & _ & -> & ->)%serve_Ok_inv.
  rewrite result_risk_level. intros [= Hlevel] Hu.
  exists (the_rows data a c), (the_alert data a c), (the_risk_log data a c).
  split; [reflexivity|].
  split; [by rewrite the_rows_alert, Hlevel|].
  split; [apply the_rows_risk|]. do 4 (split; [reflexivity|]).
  intros w2. fold (the_task data a c).
  rewrite (run_the_task_calls env data a c w2 Hu), Hlevel. reflexivity.
Qed.

Lemma alert_row_and_notification_agree_witness :
  let r := the_result Sample.outlier 7 in
  let w' := snd (serve Sample.high Sample.data Sample.world) in
  (serve Sample.high Sample.data Sample.world = (Ok r, w') ∧
   r !! "risk_level" = Some (VStr "HIGH") ∧
   manager_error Sample.high
     (broadcast_iot_update (IoTInput.dict Sample.data) r) = None) ∧
  ∃ new a k,
    db_rows w' = db_rows Sample.world ++ new ∧
    omap as_alert new = [a] ∧
    omap as_risk new = [k] ∧
    Alert.message a = "⚠ High risk detected from IoT update" ∧
    Alert.store a = 3 ∧
    Alert.dept a = 14 ∧
    Alert.risk_score a = RiskLog.risk_score k ∧
    ∀ w2,
      ws_calls (snd (run_task Sample.high
                       (broadcast_update_coro (IoTInput.dict Sample.data) r)
                       w2))
      = ws_calls w2 ++
        [ broadcast_iot_update (IoTInput.dict Sample.data) r;
          broadcast_alert (Some (VInt (Alert.store a)))
            (Some (VInt (Alert.dept a))) (Alert.message a)
            (Some (VInt (Alert.risk_score a))) ].
Proof.
  intros r w'.
  assert (serve Sample.high Sample.data Sample.world = (Ok r, w')) as H
    by (vm_compute; reflexivity).
  assert (r !! "risk_level" = Some (VStr "HIGH")) as Hl
    by (vm_compute; reflexivity).
  split; [split; [exact H | split; [exact Hl | reflexivity]] |].
  exact (alert_row_and_notification_agree Sample.high Sample.data
           Sample.world r w' H Hl eq_refl).
Defined.

(** * Further properties of the endpoint *)

(** ** Every call, whatever its outcome *)

Lemma the_rows_length data a c :
  length (the_rows data a c) = 3%nat ∨ length (the_rows data a c) = 4%nat.
Proof. unfold the_rows. destruct (String.eqb _ _); cbn; auto. Qed.

(** The two sample calls that return. *)
Lemma serve_sample_high :
  serve Sample.high Sample.data Sample.world
  = (Ok (the_result Sample.outlier 7),
     snd (serve Sample.high Sample.data Sample.world)).
Proof.
  by rewrite (serve_returns Sample.high Sample.data Sample.world
                Sample.outlier 7 eq_refl eq_refl).
Qed.

Lemma serve_sample_low :
  serve Sample.low Sample.data Sample.world
  = (Ok (the_result Sample.normal 1),
     snd (serve Sample.low Sample.data Sample.world)).
Proof.
  by rewrite (serve_returns Sample.low Sample.data Sample.world
                Sample.normal 1 eq_refl eq_refl).
Qed.

(** X1: a call whose scoring returns and whose [db.commit()] raises aborts
    with the exception of the commit: the rows staged by the four [db.add]
    are dropped with the session, no row is stored, no broadcast task is
    queued and no call is made to the manager. *)
Theorem commit_failure_aborts env data w anomaly cluster_id e :
  scoring env data = Ok (anomaly, cluster_id) →
  (∀ rows, commit_error env rows = Some e) →
  ∃ w',
    serve env data w = (Raise e, w') ∧
    db_rows w' = db_rows w ∧
    db_new w' = [] ∧
    loop_ready w' = loop_ready w ∧
    ws_calls w' = ws_calls w ∧
    log w' = log w.
Proof.
  intros Hs Hc. exists (db_close w).
  split; [|done].
  apply (serve_commit_raises env data w anomaly cluster_id e Hs (Hc _)).
Qed.

Lemma commit_failure_aborts_witness :
  (scoring Faulty.commit_down Sample.data = Ok (Sample.outlier, 7) ∧
   (∀ rows,
      commit_error Faulty.commit_down rows = Some (Exc "OperationalError"))) ∧
  ∃ w',
    serve Faulty.commit_down Sample.data Sample.world
    = (Raise (Exc "OperationalError"), w') ∧
    db_rows w' = db_rows Sample.world ∧
    db_new w' = [] ∧
    loop_ready w' = loop_ready Sample.world ∧
    ws_calls w' = ws_calls Sample.world ∧
    log w' = log Sample.world.
Proof.
  split; [split; [reflexivity | intros; reflexivity] |].
  exact (commit_failure_aborts Faulty.commit_down Sample.data Sample.world
           Sample.outlier 7 (Exc "OperationalError") eq_refl (λ _, eq_refl)).
Defined.

(** X2: rows and task go together. Every call, returning or raising,
    leaves the session empty, makes no call to the manager itself and only
    appends to the stored rows; a call that returns appends three or four
    rows and queues exactly one task, a call that raises appends no row and
    queues no task. *)
Theorem serve_all_or_nothing env data w :
  let r := fst (serve env data w) in
  let w' := snd (serve env data w) in
  db_new w' = [] ∧
  ws_calls w' = ws_calls w ∧
  ∃ new,
    db_rows w' = db_rows w ++ new ∧
    match r with
    | Ok _ =>
        (length new = 3%nat ∨ length new = 4%nat) ∧
        ∃ t, loop_ready w' = loop_ready w ++ [t]
    | Raise _ => new = [] ∧ loop_ready w' = loop_ready w
    end.
Proof.
  cbv zeta.
  destruct (scoring env data) as [[a c]|e] eqn:Hs.
  - destruct (commit_error env (the_rows data a c)) as [e|] eqn:Hc.
    + rewrite (serve_commit_raises _ _ w _ _ _ Hs Hc). cbn.
      do 2 (split; [reflexivity|]). exists []. by rewrite app_nil_r.
    + rewrite (serve_returns _ _ w _ _ Hs Hc). cbn.
      do 2 (split; [reflexivity|]). exists (the_rows data a c).
      split; [reflexivity|]. split; [apply the_rows_length|]. eauto.
  - rewrite (serve_scoring_raises _ _ w _ Hs). cbn.
    do 2 (split; [reflexivity|]). exists []. by rewrite app_nil_r.
Qed.

(** X3: the two failures before the model has answered. When
    [get_model()] raises, or when anomaly detection returns a frame with no
    row (so that [.iloc[0]] raises IndexError), the call raises that
    exception with nothing stored, staged or queued; cluster assignment is
    not reached, whatever it would have answered. *)
Theorem no_model_or_empty_frame_aborts env data w :
  (∀ e, get_model env = Raise e →
        serve env data w = (Raise e, db_close w)) ∧
  (∀ model, get_model env = Ok model →
            detect_anomalies model (model_frame data) = Ok [] →
            serve env data w = (Raise (Exc "IndexError"), db_close w)).
Proof.
  split.
  - intros e He. apply serve_scoring_raises. unfold scoring. by rewrite He.
  - intros model Hm Hd. apply serve_scoring_raises. unfold scoring.
    by rewrite Hm, Hd.
Qed.

Lemma no_model_or_empty_frame_aborts_witness :
  serve Faulty.model_down Sample.data Sample.world
  = (Raise (Exc "FileNotFoundError"), db_close Sample.world) ∧
  serve Faulty.empty_frame Sample.data Sample.world
  = (Raise (Exc "IndexError"), db_close Sample.world).
Proof.
  split.
  - exact (proj1 (no_model_or_empty_frame_aborts Faulty.model_down
                    Sample.data Sample.world) _ eq_refl).
  - exact (proj2 (no_model_or_empty_frame_aborts Faulty.empty_frame
                    Sample.data Sample.world) _ eq_refl eq_refl).
Defined.

(** X4: the stored rows of a completed call agree with its response and
    with the request. The RiskLog row holds the score, the level, the
    verdict and the cluster of the response, its level is the level of its
    own score, and the three rows carry the store, department, timestamp
    and weekly sales of the request. *)
Theorem rows_agree_with_response env data w r w' :
  serve env data w = (Ok r, w') →
  ∃ new a c k,
    db_rows w' = db_rows w ++ new ∧
    omap as_anomaly new = [a] ∧
    omap as_cluster new = [c] ∧
    omap as_risk new = [k] ∧
    r !! "risk_score" = Some (VInt (RiskLog.risk_score k)) ∧
    r !! "risk_level" = Some (VStr (RiskLog.risk_level k)) ∧
    r !! "anomaly" = Some (VInt (RiskLog.anomaly k)) ∧
    r !! "cluster" = Some (VInt (RiskLog.cluster k)) ∧
    r !! "anomaly_score" = Some (VFloat (AnomalyLog.score a)) ∧
    RiskLog.risk_level k = risk_level (RiskLog.risk_score k) ∧
    RiskLog.store k = IoTInput.store data ∧
    RiskLog.dept k = IoTInput.dept data ∧
    ClusterLog.store c = IoTInput.store data ∧
    ClusterLog.dept c = IoTInput.dept data ∧
    AnomalyLog.timestamp a = IoTInput.timestamp data ∧
    AnomalyLog.value a = IoTInput.Weekly_Sales data.
Proof.
  intros (a & c & _ & _ & -> & ->)%serve_Ok_inv.
  exists (the_rows data a c), (the_anomaly_log data a),
    (the_cluster_log data c), (the_risk_log data a c).
  split; [reflexivity|]. split; [apply the_rows_anomaly|].
  split; [apply the_rows_cluster|]. split; [apply the_rows_risk|].
  split; [apply result_risk_score|]. split; [apply result_risk_level|].
  split; [apply result_anomaly|]. split; [apply result_cluster|].
  split; [apply result_anomaly_score|]. repeat split.
Qed.

Lemma rows_agree_with_response_witness :
  let r := the_result Sample.outlier 7 in
  let w' := snd (serve Sample.high Sample.data Sample.world) in
  serve Sample.high Sample.data Sample.world = (Ok r, w') ∧
  ∃ new a c k,
    db_rows w' = db_rows Sample.world ++ new ∧
    omap as_anomaly new = [a] ∧
    omap as_cluster new = [c] ∧
    omap as_risk new = [k] ∧
    r !! "risk_score" = Some (VInt (RiskLog.risk_score k)) ∧
    r !! "risk_level" = Some (VStr (RiskLog.risk_level k)) ∧
    r !! "anomaly" = Some (VInt (RiskLog.anomaly k)) ∧
    r !! "cluster" = Some (VInt (RiskLog.cluster k)) ∧
    r !! "anomaly_score" = Some (VFloat (AnomalyLog.score a)) ∧
    RiskLog.risk_level k = risk_level (RiskLog.risk_score k) ∧
    RiskLog.store k = IoTInput.store Sample.data ∧
    RiskLog.dept k = IoTInput.dept Sample.data ∧
    ClusterLog.store c = IoTInput.store Sample.data ∧
    ClusterLog.dept c = IoTInput.dept Sample.data ∧
    AnomalyLog.timestamp a = IoTInput.timestamp Sample.data ∧
    AnomalyLog.value a = IoTInput.Weekly_Sales Sample.data.
Proof.
  intros r w'.
  pose proof serve_sample_high as H.
  split; [exact H|].
  exact (rows_agree_with_response Sample.high Sample.data Sample.world
           r w' H).
Defined.

(** X5: no deduplication. The same request served twice in a row (the
    first call returning) returns the same response the second time, stores
    the rows of the first call a second time after them, and queues a
    second, identical task behind the first. *)
Theorem repeated_call_duplicates env data w r w1 :
  serve env data w = (Ok r, w1) →
  ∃ new t w2,
    db_rows w1 = db_rows w ++ new ∧
    loop_ready w1 = loop_ready w ++ [t] ∧
    serve env data w1 = (Ok r, w2) ∧
    db_rows w2 = db_rows w ++ new ++ new ∧
    loop_ready w2 = loop_ready w ++ [t; t].
Proof.
  intros (a & c & Hs & Hc & -> & ->)%serve_Ok_inv.
  eexists (the_rows data a c), (the_task data a c), _.
  split; [reflexivity|]. split; [reflexivity|].
  split; [apply (serve_returns _ _ _ _ _ Hs Hc)|].
  cbn. by rewrite <- !app_assoc.
Qed.

Lemma repeated_call_duplicates_witness :
  let r := the_result Sample.outlier 7 in
  let w1 := snd (serve Sample.high Sample.data Sample.world) in
  serve Sample.high Sample.data Sample.world = (Ok r, w1) ∧
  ∃ new t w2,
    db_rows w1 = db_rows Sample.world ++ new ∧
    loop_ready w1 = loop_ready Sample.world ++ [t] ∧
    serve Sample.high Sample.data w1 = (Ok r, w2) ∧
    db_rows w2 = db_rows Sample.world ++ new ++ new ∧
    loop_ready w2 = loop_ready Sample.world ++ [t; t].
Proof.
  intros r w1.
  pose proof serve_sample_high as H.
  split; [exact H|].
  exact (repeated_call_duplicates Sample.high Sample.data Sample.world
           r w1 H).
Defined.

(** ** What decides the level *)

(** X6: the level is HIGH exactly when the verdict is the outlier code and
    the cluster is 6 or 7, whatever the anomaly score; it is LOW exactly
    when the verdict is not the outlier code and the score test and the
    cluster test do not both hold. *)
Theorem level_decided_by (anomaly_flag : Z) (anomaly_score : float)
    (cluster_id : Z) :
  let level :=
    risk_level (risk_score anomaly_flag anomaly_score cluster_id) in
  (level = "HIGH" ↔ anomaly_flag = -1 ∧ (cluster_id = 6 ∨ cluster_id = 7)) ∧
  (level = "LOW" ↔
   anomaly_flag ≠ -1 ∧
   ¬ ((0.15 <? abs anomaly_score)%float = true ∧
      (cluster_id = 6 ∨ cluster_id = 7))).
Proof.
  cbv zeta.
  destruct (risk_level_cases
              (risk_score anomaly_flag anomaly_score cluster_id))
    as (Hh & _ & Hl).
  rewrite Hh, Hl, risk_score_sum.
  unfold rule_outlier, rule_deviation, rule_cluster.
  destruct (Z.eqb_spec anomaly_flag (-1));
    destruct (0.15 <? abs anomaly_score)%float;
    destruct (decide (cluster_id = 6 ∨ cluster_id = 7));
    split; split; try lia; try tauto; intuition congruence.
Qed.

(** ** The broadcast task on any pair of dictionaries *)

Lemma get_is_str_true (d : gmap string value) k s :
  get_is_str d k s = true ↔ d !! k = Some (VStr s).
Proof.
  unfold get_is_str. destruct (d !! k) as [[n|x|t]|]; try by split.
  destruct (String.eqb_spec t s); split; congruence.
Qed.

(** X7: the calls [broadcast_update] makes, for any two dictionaries and
    any manager. The update broadcast is always called first. The alert
    broadcast is called after it only if the update broadcast returned and
    [result] holds the string HIGH under [risk_level]: a result without
    that key, or an update broadcast that raised, gives the update call
    alone. The alert call carries [data.get] of store and dept and
    [result.get] of risk_score, present or not. *)
Theorem broadcast_update_calls env (data result : gmap string value) w :
  let update := broadcast_iot_update data result in
  let alert :=
    broadcast_alert (data !! "store") (data !! "dept")
      "⚠ High risk detected from IoT update" (result !! "risk_score") in
  let calls := ws_calls (snd (broadcast_update env data result w)) in
  (manager_error env update = None →
   result !! "risk_level" = Some (VStr "HIGH") →
   calls = ws_calls w ++ [update; alert]) ∧
  (result !! "risk_level" ≠ Some (VStr "HIGH") →
   calls = ws_calls w ++ [update]) ∧
  (manager_error env update ≠ None → calls = ws_calls w ++ [update]).
Proof.
  intros update alert calls. subst calls. run_broadcast. fold update.
  destruct (get_is_str result "risk_level" "HIGH") eqn:Hg.
  - apply get_is_str_true in Hg. fold alert.
    destruct (manager_error env update) as [[n|n]|];
      [by cbn; repeat split | by cbn; repeat split |].
    destruct (manager_error env alert) as [[n|n]|];
      cbn; rewrite <- app_assoc; by repeat split.
  - assert (result !! "risk_level" ≠ Some (VStr "HIGH")) as Hn.
    { intros Hh%get_is_str_true. congruence. }
    destruct (manager_error env update) as [[n|n]|]; by cbn; repeat split.
Qed.

Lemma broadcast_update_calls_witness :
  let update := broadcast_iot_update Faulty.record Faulty.high_result in
  let alert :=
    broadcast_alert (Some (VInt 3)) (Some (VInt 14))
      "⚠ High risk detected from IoT update" (Some (VInt 70)) in
  (* a HIGH result through a manager that returns *)
  ws_calls (snd (broadcast_update Sample.high Faulty.record
                   Faulty.high_result Sample.world))
  = [update; alert] ∧
  (* an empty result *)
  ws_calls (snd (broadcast_update Sample.high Faulty.record ∅ Sample.world))
  = [broadcast_iot_update Faulty.record ∅] ∧
  (* a HIGH result through a manager whose update broadcast raises *)
  ws_calls
    (snd (broadcast_update
            (with_manager Sample.high
               (Faulty.update_raises (Exc "RuntimeError")))
            Faulty.record Faulty.high_result Sample.world))
  = [update].
Proof.
  intros update alert. split; [|split].
  - apply (proj1 (broadcast_update_calls Sample.high Faulty.record
                    Faulty.high_result Sample.world)); [reflexivity|].
    exact (result_risk_level Sample.outlier 7).
  - apply (proj1 (proj2 (broadcast_update_calls Sample.high Faulty.record ∅
                           Sample.world))).
    rewrite lookup_empty. discriminate.
  - apply (proj2 (proj2 (broadcast_update_calls
             (with_manager Sample.high
                (Faulty.update_raises (Exc "RuntimeError")))
             Faulty.record Faulty.high_result Sample.world))).
    discriminate.
Defined.

(** X8: what the task never does. For any dictionaries and any manager,
    [broadcast_update] leaves the stored rows, the session and the queue of
    the loop as they were, makes one or two calls to the manager, and no
    [Exception] leaves it. *)
Theorem broadcast_update_contained env (data result : gmap string value) w :
  let r := fst (broadcast_update env data result w) in
  let w' := snd (broadcast_update env data result w) in
  db_rows w' = db_rows w ∧
  db_new w' = db_new w ∧
  loop_ready w' = loop_ready w ∧
  (length (ws_calls w') = S (length (ws_calls w)) ∨
   length (ws_calls w') = S (S (length (ws_calls w)))) ∧
  ∀ n, r ≠ Raise (Exc n).
Proof.
  run_broadcast.
  destruct (manager_error env (broadcast_iot_update data result))
    as [[n|n]|].
  1, 2: cbn; rewrite length_app; cbn; repeat split; auto with lia;
    discriminate.
  destruct (get_is_str result "risk_level" "HIGH").
  - destruct (manager_error env _) as [[n|n]|];
      cbn; rewrite !length_app; cbn; repeat split; auto with lia;
      discriminate.
  - cbn; rewrite length_app; cbn; repeat split; auto with lia; discriminate.
Qed.

(** X9: a failing broadcast. When the update broadcast raises an
    Exception, the task logs that one error and ends normally, and the
    alert broadcast is not attempted. When it raises outside Exception,
    the exception leaves the task and nothing is logged. When no call to
    the manager raises, nothing is logged. *)
Theorem broadcast_failure_logged env (data result : gmap string value) w :
  let update := broadcast_iot_update data result in
  let r := fst (broadcast_update env data result w) in
  let w' := snd (broadcast_update env data result w) in
  (∀ n, manager_error env update = Some (Exc n) →
        r = Ok () ∧ log w' = log w ++ [log_error (Exc n)] ∧
        ws_calls w' = ws_calls w ++ [update]) ∧
  (∀ n, manager_error env update = Some (BaseExc n) →
        r = Raise (BaseExc n) ∧ log w' = log w ∧
        ws_calls w' = ws_calls w ++ [update]) ∧
  ((∀ c, manager_error env c = None) → r = Ok () ∧ log w' = log w).
Proof.
  intros update. run_broadcast. fold update. split; [|split].
  - intros n ->. by cbn.
  - intros n ->. by cbn.
  - intros Hm. rewrite Hm.
    destruct (get_is_str result "risk_level" "HIGH"); [|by cbn].
    rewrite Hm. by cbn.
Qed.

Lemma broadcast_failure_logged_witness :
  let update := broadcast_iot_update Faulty.record Faulty.high_result in
  let run e :=
    broadcast_update
      (with_manager Sample.high (Faulty.update_raises e))
      Faulty.record Faulty.high_result Sample.world in
  (fst (run (Exc "RuntimeError")) = Ok () ∧
   log (snd (run (Exc "RuntimeError"))) = [log_error (Exc "RuntimeError")] ∧
   ws_calls (snd (run (Exc "RuntimeError"))) = [update]) ∧
  (fst (run (BaseExc "CancelledError")) = Raise (BaseExc "CancelledError") ∧
   log (snd (run (BaseExc "CancelledError"))) = [] ∧
   ws_calls (snd (run (BaseExc "CancelledError"))) = [update]) ∧
  (fst (broadcast_update Sample.high Faulty.record Faulty.high_result
          Sample.world) = Ok () ∧
   log (snd (broadcast_update Sample.high Faulty.record Faulty.high_result
               Sample.world)) = []).
Proof.
  intros update run. split; [|split].
  - exact (proj1 (broadcast_failure_logged
                    (with_manager Sample.high
                       (Faulty.update_raises (Exc "RuntimeError")))
                    Faulty.record Faulty.high_result Sample.world)
             "RuntimeError" eq_refl).
  - exact (proj1 (proj2 (broadcast_failure_logged
                    (with_manager Sample.high
                       (Faulty.update_raises (BaseExc "CancelledError")))
                    Faulty.record Faulty.high_result Sample.world))
             "CancelledError" eq_refl).
  - exact (proj2 (proj2 (broadcast_failure_logged Sample.high Faulty.record
                           Faulty.high_result Sample.world))
             (λ _, eq_refl)).
Defined.

(** ** The dictionaries of the request *)

Lemma data_dict_dom data :
  dom (IoTInput.dict data)
  = ({[ "timestamp"; "store"; "dept"; "Weekly_Sales"; "Temperature";
        "Fuel_Price"; "CPI"; "Unemployment"; "IsHoliday" ]} : gset string).
Proof.
  unfold IoTInput.dict. rewrite !dom_insert_L, dom_empty_L. set_solver.
Qed.

(** X10: the snapshot in the ClusterLog row. In a completed call the
    [features] of the ClusterLog row are the dictionary of the request,
    with exactly its nine keys; their store and dept entries are the store
    and dept columns of the row; and the queued broadcast task carries the
    same dictionary. *)
Theorem features_snapshot env data w r w' :
  serve env data w = (Ok r, w') →
  ∃ new c,
    db_rows w' = db_rows w ++ new ∧
    omap as_cluster new = [c] ∧
    dom (ClusterLog.features c)
    = ({[ "timestamp"; "store"; "dept"; "Weekly_Sales"; "Temperature";
          "Fuel_Price"; "CPI"; "Unemployment"; "IsHoliday" ]} : gset string) ∧
    ClusterLog.features c !! "store" = Some (VInt (ClusterLog.store c)) ∧
    ClusterLog.features c !! "dept" = Some (VInt (ClusterLog.dept c)) ∧
    ClusterLog.features c !! "timestamp"
    = Some (VStr (IoTInput.timestamp data)) ∧
    loop_ready w'
    = loop_ready w ++ [broadcast_update_coro (ClusterLog.features c) r].
Proof.
  intros (a & c & _ & _ & -> & ->)%serve_Ok_inv.
  exists (the_rows data a c), (the_cluster_log data c).
  split; [reflexivity|]. split; [apply the_rows_cluster|].
  cbn [ClusterLog.features ClusterLog.store ClusterLog.dept the_cluster_log].
  split; [apply data_dict_dom|]. split; [apply data_store|].
  split; [apply data_dept|].
  split; [unfold IoTInput.dict; by simplify_map_eq | reflexivity].
Qed.

Lemma features_snapshot_witness :
  let r := the_result Sample.normal 1 in
  let w' := snd (serve Sample.low Sample.data Sample.world) in
  serve Sample.low Sample.data Sample.world = (Ok r, w') ∧
  ∃ new c,
    db_rows w' = db_rows Sample.world ++ new ∧
    omap as_cluster new = [c] ∧
    dom (ClusterLog.features c)
    = ({[ "timestamp"; "store"; "dept"; "Weekly_Sales"; "Temperature";
          "Fuel_Price"; "CPI"; "Unemployment"; "IsHoliday" ]} : gset string) ∧
    ClusterLog.features c !! "store" = Some (VInt (ClusterLog.store c)) ∧
    ClusterLog.features c !! "dept" = Some (VInt (ClusterLog.dept c)) ∧
    ClusterLog.features c !! "timestamp"
    = Some (VStr (IoTInput.timestamp Sample.data)) ∧
    loop_ready w'
    = loop_ready Sample.world
      ++ [broadcast_update_coro (ClusterLog.features c) r].
Proof.
  intros r w'.
  pose proof serve_sample_low as H.
  split; [exact H|].
  exact (features_snapshot Sample.low Sample.data Sample.world r w' H).
Defined.

Ltac peel_key k s :=
  destruct (decide (k = s)) as [->|]; [by simplify_map_eq|].

(** X11: the frame given to the model is the request renamed. It has one
    row; the row is the dictionary of the request without its timestamp,
    with store and dept moved to the capitalised columns Store and Dept
    and every other entry kept under its name; it has eight columns. *)
Theorem model_frame_renames data :
  ∃ row,
    model_frame data = [row] ∧
    row = <["Store" := VInt (IoTInput.store data)]>
          (<["Dept" := VInt (IoTInput.dept data)]>
          (delete "timestamp"
          (delete "store" (delete "dept" (IoTInput.dict data))))) ∧
    dom row
    = ({[ "Weekly_Sales"; "Temperature"; "Fuel_Price"; "CPI";
          "Unemployment"; "Store"; "Dept"; "IsHoliday" ]} : gset string) ∧
    row !! "timestamp" = None ∧ row !! "store" = None ∧ row !! "dept" = None.
Proof.
  eexists. split; [reflexivity|].
  split; [|split; [|by simplify_map_eq]].
  - apply map_eq. intros k. unfold IoTInput.dict.
    peel_key k "Store". peel_key k "Dept". peel_key k "timestamp".
    peel_key k "store". peel_key k "dept". peel_key k "IsHoliday".
    peel_key k "Unemployment". peel_key k "CPI". peel_key k "Fuel_Price".
    peel_key k "Temperature". peel_key k "Weekly_Sales".
    by simplify_map_eq.
  - rewrite !dom_insert_L, dom_empty_L. set_solver.
Qed.

(** * Properties of the simulator *)

Import Simulator.

Ltac run_simulator :=
  cbv beta iota zeta delta
    [send_record generate_random_record generate_anomaly_record
     requests_post try_except draw print sleep Simulator.lift
     mbind Sim_bind mret Sim_ret
     draws stdout posted slept fst snd].

(** ** The generators *)

Lemma generate_record_run out (anomaly : bool) (w : Run) :
  (if anomaly then generate_anomaly_record out
   else generate_random_record out) w
  = (Ok (IoTInput.dict (drawn_request out anomaly (draws w))),
     {| draws := (draws w + generator_draws anomaly)%nat;
        stdout := stdout w; posted := posted w; slept := slept w |}).
Proof.
  destruct anomaly; run_simulator; unfold drawn_request, generator_draws,
    IoTInput.dict; cbn [IoTInput.timestamp IoTInput.store IoTInput.dept
    IoTInput.Weekly_Sales IoTInput.Temperature IoTInput.Fuel_Price
    IoTInput.CPI IoTInput.Unemployment IoTInput.IsHoliday];
    repeat (f_equal; try lia);
    rewrite <- ?Nat.add_1_r, <- ?Nat.add_assoc; reflexivity.
Qed.

(** ** One record sent *)

Lemma getitem_store data :
  getitem (IoTInput.dict data) "store" = Ok (VInt (IoTInput.store data)).
Proof. unfold getitem. by rewrite data_store. Qed.

Lemma getitem_dept data :
  getitem (IoTInput.dict data) "dept" = Ok (VInt (IoTInput.dept data)).
Proof. unfold getitem. by rewrite data_dept. Qed.

Lemma getitem_sales data :
  getitem (IoTInput.dict data) "Weekly_Sales"
  = Ok (VFloat (IoTInput.Weekly_Sales data)).
Proof. unfold getitem, IoTInput.dict. by simplify_map_eq. Qed.

Lemma send_record_run out url (anomaly : bool) (w : Run) :
  let request := drawn_request out anomaly (draws w) in
  let k := (draws w + generator_draws anomaly)%nat in
  let p := post out k url (IoTInput.dict request) in
  send_record out url anomaly w
  = (fst (reply p),
     {| draws := S k;
        stdout := stdout w ++
          [ line_sending anomaly;
            line_store_dept (VInt (IoTInput.store request))
              (VInt (IoTInput.dept request));
            line_sales (VFloat (IoTInput.Weekly_Sales request)) ]
          ++ snd (reply p);
        posted := posted w ++ [(url, IoTInput.dict request)];
        slept := slept w |}).
Proof.
  intros request k p. unfold send_record.
  unfold mbind at 1. unfold Sim_bind at 1. rewrite generate_record_run.
  fold request k.
  cbv beta iota zeta delta
    [requests_post try_except print Simulator.lift mbind Sim_bind mret
     Sim_ret draws stdout posted slept].
  rewrite getitem_store, getitem_dept, getitem_sales. fold p.
  unfold reply, handled, icon_of.
  destruct p as [[status [[d|]|[name|name]]]|[name|name]];
    cbn [body status_code json_get json_get_default fst snd];
    repeat (destruct (String.eqb name _));
    cbn; rewrite <- ?app_assoc; reflexivity.
Qed.

Lemma reply_not_Exception p name : fst (reply p) ≠ Raise (Exc name).
Proof.
  unfold reply, handled.
  destruct p as [[status [[d|]|[n|n]]]|[n|n]]; cbn; discriminate.
Qed.

Lemma reply_sendings p :
  sendings (snd (reply p)) = [] ∧ record_numbers (snd (reply p)) = [].
Proof.
  unfold reply, handled.
  destruct p as [[status [[d|]|[n|n]]]|[n|n]]; cbn;
    repeat (destruct (String.eqb n _)); by cbn.
Qed.

Lemma reply_uninterrupted out n url data :
  uninterrupted out → ∃ ret, fst (reply (post out n url data)) = Ok ret.
Proof.
  intros Hu. unfold reply, handled.
  destruct (post out n url data) as [[status [[d|]|[name|name]]]|[name|name]]
    eqn:Hp; cbn; eauto.
  - destruct (Hu n url data name) as [_ Hb].
    by destruct (Hb _ Hp).
  - by destruct (Hu n url data name) as [Hb _].
Qed.

(** X12: every record a generator returns is the dictionary of a request
    of the endpoint, with exactly its nine fields; the generator prints
    nothing and sends nothing; an anomaly record is always a holiday
    record. When [random.randint] answers within its bounds the store is
    between 1 and 45 and the department between 1 and 98, and when
    [random.choice] answers an element of its list the holiday flag is 0
    or 1. *)
Theorem generated_record_is_request out (anomaly : bool) (w : Run) :
  ∃ data w',
    (if anomaly then generate_anomaly_record out
     else generate_random_record out) w = (Ok (IoTInput.dict data), w') ∧
    stdout w' = stdout w ∧
    posted w' = posted w ∧
    dom (IoTInput.dict data)
    = ({[ "timestamp"; "store"; "dept"; "Weekly_Sales"; "Temperature";
          "Fuel_Price"; "CPI"; "Unemployment"; "IsHoliday" ]} : gset string) ∧
    (anomaly = true → IoTInput.IsHoliday data = 1) ∧
    ((∀ n lo hi, lo ≤ hi → lo ≤ randint out n lo hi ≤ hi) →
     1 ≤ IoTInput.store data ≤ 45 ∧ 1 ≤ IoTInput.dept data ≤ 98) ∧
    ((∀ n x l, choice out n (x :: l) ∈ x :: l) →
     IoTInput.IsHoliday data = 0 ∨ IoTInput.IsHoliday data = 1).
Proof.
  eexists _, _. split; [apply generate_record_run|].
  do 2 (split; [reflexivity|]). split; [apply data_dict_dom|].
  split; [by intros ->|]. split.
  - intros Hr. unfold drawn_request.
    destruct anomaly; cbn; split; apply Hr; lia.
  - intros Hc. unfold drawn_request. destruct anomaly; cbn; [by right|].
    specialize (Hc (draws w + 8)%nat 0 [1]).
    rewrite !elem_of_cons, elem_of_nil in Hc. tauto.
Qed.

Lemma generated_record_is_request_witness :
  let out := steady ∅ in
  ((∀ n lo hi, lo ≤ hi → lo ≤ randint out n lo hi ≤ hi) ∧
   (∀ n x l, choice out n (x :: l) ∈ x :: l)) ∧
  ∃ data w',
    generate_random_record out start = (Ok (IoTInput.dict data), w') ∧
    stdout w' = stdout start ∧
    posted w' = posted start ∧
    dom (IoTInput.dict data)
    = ({[ "timestamp"; "store"; "dept"; "Weekly_Sales"; "Temperature";
          "Fuel_Price"; "CPI"; "Unemployment"; "IsHoliday" ]} : gset string) ∧
    (false = true → IoTInput.IsHoliday data = 1) ∧
    ((∀ n lo hi, lo ≤ hi → lo ≤ randint out n lo hi ≤ hi) →
     1 ≤ IoTInput.store data ≤ 45 ∧ 1 ≤ IoTInput.dept data ≤ 98) ∧
    ((∀ n x l, choice out n (x :: l) ∈ x :: l) →
     IoTInput.IsHoliday data = 0 ∨ IoTInput.IsHoliday data = 1).
Proof.
  intros out. split.
  - split; [intros n lo hi; cbn; lia|].
    intros n x l. cbn. apply list_elem_of_here.
  - exact (generated_record_is_request out false start).
Defined.

(** X13: one call of [send_record] sends exactly one request, to the url
    it was given, whose body is the dictionary of a request of the
    endpoint; it announces one record with the flag it was given and does
    not sleep. No [Exception] leaves it: it returns the JSON object of the
    response when there is one, and None when the post raises an
    Exception, when [r.json()] raises one, or when the JSON value is not an
    object. *)
Theorem send_record_contained out url (anomaly : bool) (w : Run) :
  let r := fst (send_record out url anomaly w) in
  let w' := snd (send_record out url anomaly w) in
  ∃ n data,
    posted w' = posted w ++ [(url, IoTInput.dict data)] ∧
    slept w' = slept w ∧
    sendings (stdout w') = sendings (stdout w) ++ [anomaly] ∧
    (∀ name, r ≠ Raise (Exc name)) ∧
    (∀ status d,
       post out n url (IoTInput.dict data)
       = Ok {| status_code := status; body := Ok (JObject d) |} →
       r = Ok (Some d)) ∧
    (∀ name, post out n url (IoTInput.dict data) = Raise (Exc name) →
             r = Ok None) ∧
    (∀ status name,
       post out n url (IoTInput.dict data)
       = Ok {| status_code := status; body := Raise (Exc name) |} →
       r = Ok None) ∧
    (∀ status,
       post out n url (IoTInput.dict data)
       = Ok {| status_code := status; body := Ok JOther |} →
       r = Ok None).
Proof.
  cbv zeta. rewrite send_record_run. cbn [fst snd posted slept stdout].
  eexists _, _. split; [reflexivity|]. split; [reflexivity|].
  split.
  { unfold sendings. rewrite !omap_app.
    fold (sendings (snd (reply (post out
      (draws w + generator_draws anomaly)
      url (IoTInput.dict (drawn_request out anomaly (draws w))))))).
    rewrite (proj1 (reply_sendings _)). reflexivity. }
  split; [intros name; apply reply_not_Exception|].
  repeat split; intros; by rewrite H.
Qed.

Lemma send_record_contained_witness :
  fst (send_record (steady ∅) LOCAL_URL false start) = Ok (Some ∅) ∧
  fst (send_record (offline (Exc "Timeout")) LOCAL_URL true start) = Ok None.
Proof.
  split.
  - destruct (send_record_contained (steady ∅) LOCAL_URL false start)
      as (n & data & _ & _ & _ & _ & H & _).
    exact (H 200 ∅ eq_refl).
  - destruct (send_record_contained (offline (Exc "Timeout")) LOCAL_URL true
                start) as (n & data & _ & _ & _ & _ & _ & H & _).
    exact (H "Timeout" eq_refl).
Defined.

(** X14: what [send_record] shows of a response. When the server answers
    with a JSON object, the lines printed after the three lines of the
    record are the status code, the risk line and the anomaly and cluster
    line. The icon of the risk line is red exactly for the level HIGH and
    yellow exactly for MEDIUM; a response without risk_level is shown as
    UNKNOWN with the green icon, and one without risk_score with score 0. *)
Theorem send_record_display out url (anomaly : bool) (w : Run) status d :
  (∀ n u b, post out n u b
            = Ok {| status_code := status; body := Ok (JObject d) |}) →
  ∃ sent icon risk score,
    stdout (snd (send_record out url anomaly w))
    = stdout w ++ sent ++
      [ line_response status; line_risk icon risk score;
        line_anomaly_cluster (d !! "anomaly") (d !! "cluster") ] ∧
    length sent = 3%nat ∧
    (icon = "🔴" ↔ d !! "risk_level" = Some (VStr "HIGH")) ∧
    (icon = "🟡" ↔ d !! "risk_level" = Some (VStr "MEDIUM")) ∧
    (d !! "risk_level" = None → risk = VStr "UNKNOWN" ∧ icon = "🟢") ∧
    (∀ v, d !! "risk_level" = Some v → risk = v) ∧
    (d !! "risk_score" = None → score = VInt 0) ∧
    (∀ v, d !! "risk_score" = Some v → score = v).
Proof.
  intros Hp. rewrite send_record_run, Hp.
  cbn [fst snd stdout reply body status_code].
  set (risk := default (VStr "UNKNOWN") (d !! "risk_level")).
  set (score := default (VInt 0) (d !! "risk_score")).
  eexists [_; _; _], (icon_of risk), risk, score.
  split; [reflexivity|]. split; [reflexivity|].
  assert ((d !! "risk_score" = None → score = VInt 0) ∧
          (∀ v, d !! "risk_score" = Some v → score = v)) as Hscore.
  { subst score. destruct (d !! "risk_score"); cbn; split; intros;
      congruence. }
  assert ((d !! "risk_level" = None → risk = VStr "UNKNOWN") ∧
          (∀ v, d !! "risk_level" = Some v → risk = v)) as Hrisk.
  { subst risk. destruct (d !! "risk_level"); cbn; split; intros;
      congruence. }
  assert ((icon_of risk = "🔴" ↔ d !! "risk_level" = Some (VStr "HIGH")) ∧
          (icon_of risk = "🟡" ↔ d !! "risk_level" = Some (VStr "MEDIUM")) ∧
          (d !! "risk_level" = None → icon_of risk = "🟢")) as Hicon.
  { subst risk. unfold icon_of, is_str.
    destruct (d !! "risk_level") as [[x|x|t]|]; cbn [default from_option id].
    1, 2, 4: by repeat split.
    destruct (String.eqb_spec t "HIGH") as [->|?]; [by repeat split|].
    destruct (String.eqb_spec t "MEDIUM") as [->|?];
      repeat split; intros; simplify_eq; done. }
  tauto.
Qed.

Lemma send_record_display_witness :
  let out := steady ∅ in
  (∀ n u b, post out n u b
            = Ok {| status_code := 200; body := Ok (JObject ∅) |}) ∧
  ∃ sent icon risk score,
    stdout (snd (send_record out LOCAL_URL false start))
    = stdout start ++ sent ++
      [ line_response 200; line_risk icon risk score;
        line_anomaly_cluster
          ((∅ : gmap string value) !! "anomaly")
          ((∅ : gmap string value) !! "cluster") ] ∧
    length sent = 3%nat ∧
    (icon = "🔴" ↔ (∅ : gmap string value) !! "risk_level"
                   = Some (VStr "HIGH")) ∧
    (icon = "🟡" ↔ (∅ : gmap string value) !! "risk_level"
                   = Some (VStr "MEDIUM")) ∧
    ((∅ : gmap string value) !! "risk_level" = None →
     risk = VStr "UNKNOWN" ∧ icon = "🟢") ∧
    (∀ v, (∅ : gmap string value) !! "risk_level" = Some v → risk = v) ∧
    ((∅ : gmap string value) !! "risk_score" = None → score = VInt 0) ∧
    (∀ v, (∅ : gmap string value) !! "risk_score" = Some v → score = v).
Proof.
  intros out. split; [intros; reflexivity|].
  exact (send_record_display out LOCAL_URL false start 200 ∅
           (λ _ _ _, eq_refl)).
Defined.

(** ** Several records sent *)

Lemma sendings_app l1 l2 : sendings (l1 ++ l2) = sendings l1 ++ sendings l2.
Proof. apply omap_app. Qed.

Lemma record_numbers_app l1 l2 :
  record_numbers (l1 ++ l2) = record_numbers l1 ++ record_numbers l2.
Proof. apply omap_app. Qed.

(** One record sent on an uninterrupted network. *)
Lemma send_record_step out url (anomaly : bool) (w : Run) :
  uninterrupted out →
  ∃ ret w' data,
    send_record out url anomaly w = (Ok ret, w') ∧
    sendings (stdout w') = sendings (stdout w) ++ [anomaly] ∧
    record_numbers (stdout w') = record_numbers (stdout w) ∧
    posted w' = posted w ++ [(url, IoTInput.dict data)] ∧
    slept w' = slept w.
Proof.
  intros Hu. rewrite send_record_run.
  set (p := post out _ url _).
  destruct (reply_uninterrupted out (draws w + generator_draws anomaly) url
              (IoTInput.dict (drawn_request out anomaly (draws w))) Hu)
    as [ret Hret].
  fold p in Hret. rewrite Hret. eexists ret, _, _.
  split; [reflexivity|]. cbn [stdout posted slept].
  rewrite !sendings_app, !record_numbers_app.
  rewrite (proj1 (reply_sendings p)), (proj2 (reply_sendings p)).
  cbn. by rewrite !app_nil_r.
Qed.

Lemma count_set_snoc flags (b : bool) :
  count_set (flags ++ [b]) = (count_set flags + if b then 1 else 0)%nat.
Proof.
  unfold count_set. rewrite filter_app, length_app.
  destruct b.
  - rewrite filter_cons_True by done. rewrite filter_nil. reflexivity.
  - rewrite filter_cons_False by done. rewrite filter_nil. reflexivity.
Qed.

Lemma count_every_third (n : nat) :
  Z.of_nat (count_set ((λ i, i `mod` 3 =? 0) <$> seqZ 0 (Z.of_nat n)))
  = (Z.of_nat n + 2) / 3.
Proof.
  induction n as [|n IH]; [reflexivity|].
  rewrite seqZ_S, fmap_app, list_fmap_singleton, count_set_snoc,
    Nat2Z.inj_add, IH.
  rewrite Z.add_0_l, Nat2Z.inj_succ.
  destruct (Z.eqb_spec (Z.of_nat n `mod` 3) 0) as [Hm|Hm]; cbn [Z.of_nat];
    Z.div_mod_to_equations; lia.
Qed.


Lemma requests_to_snoc url sent data :
  requests_to url sent → requests_to url (sent ++ [(url, IoTInput.dict data)]).
Proof.
  intros H. apply Forall_app. split; [exact H|].
  apply Forall_singleton. split; [reflexivity | by exists data].
Qed.

Lemma requests_to_cons url sent data :
  requests_to url sent → requests_to url ((url, IoTInput.dict data) :: sent).
Proof.
  intros H. apply Forall_cons. split; [|exact H].
  split; [reflexivity | by exists data].
Qed.

(** The loop of [run_burst] over any list of indices. *)
Lemma burst_loop out url (l : list Z) (w : Run) :
  uninterrupted out →
  ∃ w' new,
    for_each l (λ i,
      send_record out url (i `mod` 3 =? 0) ;; sleep (VFloat 0.5)) w
    = (Ok (), w') ∧
    sendings (stdout w')
    = sendings (stdout w) ++ ((λ i, i `mod` 3 =? 0) <$> l) ∧
    record_numbers (stdout w') = record_numbers (stdout w) ∧
    posted w' = posted w ++ new ∧
    length new = length l ∧
    requests_to url new ∧
    slept w' = slept w ++ replicate (length l) (VFloat 0.5).
Proof.
  intros Hu. revert w. induction l as [|i l IH]; intros w.
  { exists w, []. cbn. rewrite !app_nil_r. repeat split; constructor. }
  destruct (send_record_step out url (i `mod` 3 =? 0) w Hu)
    as (ret & w1 & data & Hsend & Hs1 & Hr1 & Hp1 & Hz1).
  set (w2 := {| draws := draws w1; stdout := stdout w1; posted := posted w1;
                slept := slept w1 ++ [VFloat 0.5] |}).
  destruct (IH w2) as (w' & new & Hloop & Hs & Hr & Hp & Hlen & Hto & Hz).
  exists w', ((url, IoTInput.dict data) :: new).
  split.
  { cbn [for_each]. unfold mbind at 1. unfold Sim_bind at 1.
    unfold mbind at 1. unfold Sim_bind at 1. rewrite Hsend.
    unfold sleep at 1. fold w2. exact Hloop. }
  cbn [stdout posted slept w2] in *.
  rewrite Hs, Hs1, Hr, Hr1, Hp, Hp1, Hz, Hz1, <- !app_assoc.
  cbn. repeat split; auto using requests_to_cons.
Qed.


(** X15: a burst. On a network that raises nothing outside Exception,
    [run_burst] ends normally having sent exactly [count] requests (none
    when [count] is below 1), all to the url it was given and each the
    dictionary of a request of the endpoint; the record of index [i] is an
    anomaly record exactly when [i] is a multiple of 3, which makes
    [(count + 2) / 3] anomaly records; it has slept half a second after
    each record. *)
Theorem run_burst_sends out url (count : Z) (w : Run) :
  uninterrupted out →
  ∃ w' new,
    run_burst out url count w = (Ok (), w') ∧
    posted w' = posted w ++ new ∧
    length new = Z.to_nat count ∧
    requests_to url new ∧
    sendings (stdout w')
    = sendings (stdout w) ++ ((λ i, i `mod` 3 =? 0) <$> seqZ 0 count) ∧
    count_set ((λ i, i `mod` 3 =? 0) <$> seqZ 0 count)
    = Z.to_nat ((count + 2) / 3) ∧
    slept w' = slept w ++ replicate (Z.to_nat count) (VFloat 0.5).
Proof.
  intros Hu. unfold run_burst.
  set (w0 := {| draws := draws w; stdout := stdout w ++ [line_burst_mode count];
                posted := posted w; slept := slept w |}).
  destruct (burst_loop out url (seqZ 0 count) w0 Hu)
    as (w1 & new & Hloop & Hs & _ & Hp & Hlen & Hto & Hz).
  eexists _, new. split.
  { unfold mbind at 1. unfold Sim_bind at 1. unfold print at 1. fold w0.
    unfold mbind at 1. unfold Sim_bind at 1. rewrite Hloop.
    unfold print. reflexivity. }
  cbn [stdout posted slept]. rewrite length_seqZ in *.
  rewrite sendings_app, Hs, Hp, Hz. cbn [w0 stdout posted slept].
  rewrite sendings_app. cbn. rewrite !app_nil_r.
  repeat split; try done.
  destruct (Z.le_gt_cases 0 count) as [Hc|Hc].
  - rewrite <- (Z2Nat.id count) at 1 by done.
    rewrite <- (Nat2Z.id (count_set _)), count_every_third.
    by rewrite Z2Nat.id.
  - rewrite seqZ_nil by lia. cbn.
    assert ((count + 2) / 3 ≤ 0) by (Z.div_mod_to_equations; lia). lia.
Qed.

Lemma run_burst_sends_witness :
  let out := steady ∅ in
  uninterrupted out ∧
  ∃ w' new,
    run_burst out LOCAL_URL 4 start = (Ok (), w') ∧
    posted w' = posted start ++ new ∧
    length new = Z.to_nat 4 ∧
    requests_to LOCAL_URL new ∧
    sendings (stdout w')
    = sendings (stdout start) ++ ((λ i, i `mod` 3 =? 0) <$> seqZ 0 4) ∧
    count_set ((λ i, i `mod` 3 =? 0) <$> seqZ 0 4)
    = Z.to_nat ((4 + 2) / 3) ∧
    slept w' = slept start ++ replicate (Z.to_nat 4) (VFloat 0.5).
Proof.
  intros out.
  assert (uninterrupted out) as Hu.
  { intros n url data name. split; [discriminate|].
    intros r [= <-]. discriminate. }
  split; [exact Hu|].
  exact (run_burst_sends out LOCAL_URL 4 start Hu).
Defined.







(** ** The simulator in front of the endpoint *)

Lemma the_rows_has_alert data a c :
  (∃ al, RAlert al ∈ the_rows data a c) ↔ the_level a c = "HIGH".
Proof.
  unfold the_rows. destruct (String.eqb_spec (the_level a c) "HIGH") as [H|H].
  - split; [done|]. intros _. exists (the_alert data a c).
    rewrite !elem_of_app, !elem_of_cons. tauto.
  - split; [|done]. intros [al Hal].
    rewrite app_nil_r, !elem_of_cons, elem_of_nil in Hal.
    destruct Hal as [|[|[|[]]]]; discriminate.
Qed.


(** X18: what the simulator shows of a completed ingest call. When the
    server answers with the response of a call of the endpoint that
    returned, [send_record] returns that response, its risk line shows the
    level and the score of the RiskLog row stored by the call, and the
    icon is red exactly when the call stored an Alert row, green exactly
    when the level is LOW. *)
Theorem display_matches_store env data w r w' out url (anomaly : bool)
    (sw : Run) status :
  serve env data w = (Ok r, w') →
  (∀ n u b, post out n u b
            = Ok {| status_code := status; body := Ok (JObject r) |}) →
  ∃ new k sent icon,
    db_rows w' = db_rows w ++ new ∧
    omap as_risk new = [k] ∧
    fst (send_record out url anomaly sw) = Ok (Some r) ∧
    stdout (snd (send_record out url anomaly sw))
    = stdout sw ++ sent ++
      [ line_response status;
        line_risk icon (VStr (RiskLog.risk_level k))
          (VInt (RiskLog.risk_score k));
        line_anomaly_cluster (Some (VInt (RiskLog.anomaly k)))
          (Some (VInt (RiskLog.cluster k))) ] ∧
    (icon = "🔴" ↔ ∃ a, RAlert a ∈ new) ∧
    (icon = "🟢" ↔ RiskLog.risk_level k = "LOW").
Proof.
  intros (a & c & _ & _ & -> & ->)%serve_Ok_inv Hp.
  eexists (the_rows data a c), (the_risk_log data a c), [_; _; _],
    (icon_of (VStr (the_level a c))).
  split; [reflexivity|]. split; [apply the_rows_risk|].
  rewrite send_record_run, Hp.
  cbn [fst snd stdout reply body status_code].
  rewrite result_risk_level, result_risk_score, result_anomaly,
    result_cluster.
  split; [reflexivity|]. split; [reflexivity|].
  cbn [RiskLog.risk_level the_risk_log]. rewrite the_rows_has_alert.
  unfold icon_of, is_str.
  pose proof (the_level_values a c) as Hv.
  rewrite !elem_of_cons, elem_of_nil in Hv.
  destruct Hv as [->|[->|[->|[]]]]; cbn; by split.
Qed.

Lemma display_matches_store_witness :
  let r := the_result Sample.outlier 7 in
  let w' := snd (serve Sample.high Sample.data Sample.world) in
  let out := steady r in
  (serve Sample.high Sample.data Sample.world = (Ok r, w') ∧
   (∀ n u b, post out n u b
             = Ok {| status_code := 200; body := Ok (JObject r) |})) ∧
  ∃ new k sent icon,
    db_rows w' = db_rows Sample.world ++ new ∧
    omap as_risk new = [k] ∧
    fst (send_record out LOCAL_URL false start) = Ok (Some r) ∧
    stdout (snd (send_record out LOCAL_URL false start))
    = stdout start ++ sent ++
      [ line_response 200;
        line_risk icon (VStr (RiskLog.risk_level k))
          (VInt (RiskLog.risk_score k));
        line_anomaly_cluster (Some (VInt (RiskLog.anomaly k)))
          (Some (VInt (RiskLog.cluster k))) ] ∧
    (icon = "🔴" ↔ ∃ a, RAlert a ∈ new) ∧
    (icon = "🟢" ↔ RiskLog.risk_level k = "LOW").
Proof.
  intros r w' out. pose proof serve_sample_high as H.
  split; [split; [exact H | intros; reflexivity] |].
  exact (display_matches_store Sample.high Sample.data Sample.world r w'
           out LOCAL_URL false start 200 H (λ _ _ _, eq_refl)).
Defined.

(** * Properties of the application *)

(** X19: the routers are mounted under ten different prefixes, all but
    the websocket router below /api/v1/; the endpoint of iot.py is served
    at /api/v1/iot/, and the two urls of the simulator are that path, less
    its final slash, on the local and on the production host. *)
Theorem routes_and_simulator_urls :
  NoDup (snd <$> Main.included) ∧
  NoDup (fst <$> Main.included) ∧
  (∀ router prefix,
     (router, prefix) ∈ Main.included → router ≠ "websocket_router" →
     String.prefix (String.append Main.API_V1_PREFIX "/") prefix = true) ∧
  Main.iot_ingest_path = Some "/api/v1/iot/" ∧
  Some (String.append LOCAL_URL "/")
  = String.append "http://localhost:8000" <$> Main.iot_ingest_path ∧
  Some (String.append PRODUCTION_URL "/")
  = String.append "https://organ-c-codefest-hackathon.onrender.com"
    <$> Main.iot_ingest_path.
Proof.
  split; [by apply (bool_decide_unpack _); vm_compute|].
  split; [by apply (bool_decide_unpack _); vm_compute|].
  split; [|by vm_compute].
  intros router prefix Hin Hws. unfold Main.included in Hin.
  rewrite !elem_of_cons, elem_of_nil in Hin.
  repeat (destruct Hin as [Hin|Hin]; [by simplify_eq|]). done.
Qed.
